(** * Retry and fallback logic of the reliable-agents demo

    Shallow embedding of [execute_with_retry] and [get_fallback_response]
    (src/m2-reliable-agents/02_fallback_logic.py) together with the two mock
    back ends of that file, and the properties of the retry loop.

    Python dicts with string keys are [gmap string pyval].  The calls of the
    operation, [print] and [time.sleep] are the effects of a small state and
    exception monad, which appends them to a trace. *)

From stdpp Require Import base strings gmap list pretty.
From Stdlib Require Import ZArith Lia.

Open Scope Z_scope.

(** ** Python values and dicts *)

(** The values that occur in the dicts of this module. *)
#[warnings="-register-all"] Inductive pyval : Type :=
  | PyNone
  | PyBool (b : bool)
  | PyInt (n : Z)
  | PyStr (s : string)
  | PyList (l : list pyval).

(** Python truth value testing, as used by [not result.get("retryable")]. *)
Definition truthy (v : pyval) : bool :=
  match v with
  | PyNone => false
  | PyBool b => b
  | PyInt n => negb (n =? 0)
  | PyStr s => negb (String.eqb s "")
  | PyList l => match l with [] => false | _ :: _ => true end
  end.

Abbreviation dict := (gmap string pyval).

(** [key in d] *)
Definition py_in (key : string) (d : dict) : bool :=
  match d !! key with Some _ => true | None => false end.

(** [d.get(key)], which is [None] for an absent key. *)
Definition py_get (d : dict) (key : string) : pyval :=
  default PyNone (d !! key).

(** [str(n)] of an [int], as an f-string formats it. *)
Definition str_of_int (n : Z) : string := pretty n.

(** [range(n)] *)
Definition range (n : Z) : list Z := Z.of_nat <$> seq 0 (Z.to_nat n).

(** ** Effects *)

(** A raised Python exception. *)
Record pyexn : Type := PyExn { exn_type : string; exn_msg : string }.

(** What a call produces: a value, or an exception that propagates. *)
Inductive outcome (A : Type) : Type :=
  | Returned (a : A)
  | Raised (e : pyexn).
Arguments Returned {A} a.
Arguments Raised {A} e.

(** The two [print] statements of the retry loop, with the values they
    format. *)
Inductive message : Type :=
  | MsgRetryableError (code : pyval)
  | MsgWaiting (wait_time attempt_no max_retries : Z).

(** Observable effects, in program order. *)
Inductive event : Type :=
  | EvCall (args : dict) (res : outcome dict)
  | EvPrint (m : message)
  | EvSleep (secs : Z).

(** ** The retry loop *)

(** The dict returned once the loop is exhausted. *)
Definition max_retries_result (max_retries : Z) : dict :=
  {[ "error" := PyStr "max_retries";
     "message" :=
       PyStr ("Failed after " +:+ str_of_int max_retries +:+ " attempts");
     "retryable" := PyBool false ]}.

(** The condition of the early return,
    ["error" not in result or not result.get("retryable")]. *)
Definition returns_immediately (result : dict) : bool :=
  negb (py_in "error" result) || negb (truthy (py_get result "retryable")).

Section Retry.

(** State of everything outside the retry loop: the back end behind the
    operation and its clock. *)
Variable Env : Type.

(** How the passage of [secs] seconds changes the outside state. *)
Variable elapse : Z -> Env -> Env.

(** The world a run starts from and ends in.  [cancel_at] is the host's
    cancellation signal: [cancel_at w k] tells whether it fires during the
    [k]-th wait.  The function has no parameter for it and no statement of
    the module reads it. *)
Record World : Type := MkWorld {
  env : Env;
  cancel_at : nat -> bool;
  trace : list event
}.

(** An operation, called with the dict of its keyword arguments: it reads
    and changes the outside state and returns a dict or raises. *)
Definition Operation : Type := dict -> Env -> outcome dict * Env.

Definition M (A : Type) : Type := World -> outcome A * World.

Definition ret {A} (a : A) : M A := fun w => (Returned a, w).

(** Sequencing: an exception raised by [m] skips the rest. *)
Definition bind {A B} (k : A -> M B) (m : M A) : M B :=
  fun w =>
    match m w with
    | (Returned a, w') => k a w'
    | (Raised e, w') => (Raised e, w')
    end.

#[global] Instance M_ret : MRet M := @ret.
#[global] Instance M_bind : MBind M := @bind.

Definition log (ev : event) (w : World) : World :=
  MkWorld (env w) (cancel_at w) (trace w ++ [ev]).

(** The call of [func] on the keyword arguments [args]. *)
Definition call (func : Operation) (args : dict) : M dict :=
  fun w =>
    let '(res, e') := func args (env w) in
    (res, MkWorld e' (cancel_at w) (trace w ++ [EvCall args res])).

(** [print(...)] *)
Definition print (m : message) : M unit :=
  fun w => (Returned tt, log (EvPrint m) w).

(** [time.sleep(secs)]: blocks for the whole duration, whatever its
    length. *)
Definition time_sleep (secs : Z) : M unit :=
  fun w =>
    (Returned tt,
     MkWorld (elapse secs (env w)) (cancel_at w) (trace w ++ [EvSleep secs])).

(** [for x in xs: body], where the body either goes on to the next
    iteration ([None]) or returns from the enclosing function ([Some r]). *)
Fixpoint for_in {A} (xs : list Z) (body : Z -> M (option A)) : M (option A) :=
  match xs with
  | [] => ret None
  | x :: xs' =>
      r ← body x;
      match r with
      | Some a => ret (Some a)
      | None => for_in xs' body
      end
  end.

(** One iteration of the loop of [execute_with_retry]. *)
Definition attempt_body (func : Operation) (args : dict) (max_retries : Z)
    (attempt : Z) : M (option dict) :=
  result ← call func args;
  if returns_immediately result then ret (Some result)
  else
    (if attempt <? max_retries - 1 then
       let wait_time := 2 ^ attempt in
       print (MsgRetryableError (py_get result "error"));;
       print (MsgWaiting wait_time (attempt + 1) max_retries);;
       time_sleep wait_time
     else ret tt);;
    ret None.

Definition execute_with_retry (func : Operation) (args : dict)
    (max_retries : Z) : M dict :=
  r ← for_in (range max_retries) (attempt_body func args max_retries);
  match r with
  | Some result => ret result
  | None => ret (max_retries_result max_retries)
  end.

End Retry.

Arguments MkWorld {Env} env cancel_at trace.
Arguments env {Env} w.
Arguments cancel_at {Env} w.
Arguments trace {Env} w.
Arguments ret {Env A} a w.
Arguments bind {Env A B} k m w.
Arguments log {Env} ev w.
Arguments call {Env} func args w.
Arguments print {Env} m w.
Arguments time_sleep {Env} elapse secs w.
Arguments for_in {Env A} xs body w.
Arguments attempt_body {Env} elapse func args max_retries attempt w.
Arguments execute_with_retry {Env} elapse func args max_retries w.

(** ** The mock back ends *)

Definition get_order_status (order_id : string) (simulate_error : option string)
    : dict :=
  if decide (simulate_error = Some "timeout") then
    {[ "error" := PyStr "timeout"; "message" := PyStr "Request timed out";
       "retryable" := PyBool true ]}
  else if decide (simulate_error = Some "service_unavailable") then
    {[ "error" := PyStr "service_unavailable";
       "message" := PyStr "Service temporarily unavailable";
       "retryable" := PyBool true ]}
  else
    let orders : gmap string dict :=
      {[ "ORD-12345" :=
           {[ "order_id" := PyStr "ORD-12345"; "status" := PyStr "delivered";
              "items" := PyList [PyStr "Blue Widget"] ]};
         "ORD-67890" :=
           {[ "order_id" := PyStr "ORD-67890"; "status" := PyStr "in_transit";
              "items" := PyList [PyStr "Green Tool"] ]} ]} in
    default
      {[ "error" := PyStr "not_found";
         "message" := PyStr ("Order " +:+ order_id +:+ " not found");
         "retryable" := PyBool false ]}
      (orders !! order_id).

Definition check_inventory (product_id : string) (simulate_error : option string)
    : dict :=
  if decide (simulate_error = Some "rate_limit") then
    {[ "error" := PyStr "rate_limit"; "message" := PyStr "Too many requests";
       "retryable" := PyBool true ]}
  else
    let inventory : gmap string dict :=
      {[ "blue-widget" :=
           {[ "product_id" := PyStr "blue-widget"; "name" := PyStr "Blue Widget";
              "in_stock" := PyBool true; "quantity" := PyInt 45 ]};
         "green-tool" :=
           {[ "product_id" := PyStr "green-tool"; "name" := PyStr "Green Tool";
              "in_stock" := PyBool false; "quantity" := PyInt 0 ]} ]} in
    default
      {[ "error" := PyStr "not_found";
         "message" := PyStr ("Product " +:+ product_id +:+ " not found");
         "retryable" := PyBool false ]}
      (inventory !! product_id).

(** Binding of a dict of keyword arguments to the signature
    [(id_param: str, simulate_error: str = None)] of a back end.  A missing
    [id_param] or a keyword that is not a parameter raises [TypeError], as in
    Python.  Values are taken at their annotated type [str] (and [None] for
    the default); a value of another type is outside the annotations and is
    rejected here in the same way. *)
Definition bind_kwargs (id_param : string) (args : dict)
    : option (string * option string) :=
  if decide (dom args ⊆ ({[ id_param; "simulate_error" ]} : gset string)) then
    match args !! id_param, args !! "simulate_error" with
    | Some (PyStr id), None => Some (id, None)
    | Some (PyStr id), Some PyNone => Some (id, None)
    | Some (PyStr id), Some (PyStr err) => Some (id, Some err)
    | _, _ => None
    end
  else None.

(** A stateless back end as an operation over any outside state. *)
Definition backend_operation {Env : Type} (id_param : string)
    (f : string -> option string -> dict) : Operation Env :=
  fun args e =>
    match bind_kwargs id_param args with
    | Some (id, err) => (Returned (f id err), e)
    | None => (Raised (PyExn "TypeError" "arguments do not match the signature"), e)
    end.

(** The entries of [available_functions]. *)
Definition op_get_order_status {Env : Type} : Operation Env :=
  backend_operation "order_id" get_order_status.
Definition op_check_inventory {Env : Type} : Operation Env :=
  backend_operation "product_id" check_inventory.

(** ** The fallback messages *)

Definition fallbacks : gmap string string :=
  {[ "not_found" :=
       "I couldn't find that. Please double-check the ID and try again.";
     "timeout" :=
       "Our system is running slow. Would you like me to try again?";
     "rate_limit" :=
       "We're experiencing high traffic. Please wait a moment.";
     "service_unavailable" :=
       "Our system is temporarily unavailable. Try again in a few minutes.";
     "max_retries" :=
       "I'm having trouble accessing our systems. Let me connect you with support@globomantics.com" ]}.

Definition get_fallback_response (error : string) : string :=
  default "I encountered an issue. Please contact support@globomantics.com"
    (fallbacks !! error).

(** The codes that have an entry of their own in [fallbacks]. *)
Definition recognized_codes : list string :=
  ["not_found"; "timeout"; "rate_limit"; "service_unavailable"; "max_retries"].

(** The default of the lookup in [fallbacks]. *)
Definition generic_fallback : string :=
  "I encountered an issue. Please contact support@globomantics.com".

(** ** Reading a run *)

(** Classification of a result dict: a Success has no ["error"] key, a
    Failure has one and is retryable when its ["retryable"] entry is
    truthy. *)
Definition is_success (d : dict) : bool := negb (py_in "error" d).
Definition is_failure (d : dict) : bool := py_in "error" d.
Definition is_retryable_failure (d : dict) : bool :=
  py_in "error" d && truthy (py_get d "retryable").

(** The error code of a dict, when it is a string. *)
Definition error_code (d : dict) : option string :=
  match d !! "error" with Some (PyStr c) => Some c | _ => None end.

Definition is_call (ev : event) : bool :=
  match ev with EvCall _ _ => true | _ => false end.

(** Number of calls of the operation in a trace. *)
Definition count_calls (tr : list event) : nat := length (filter is_call tr).

(** The waits of a trace, in order. *)
Definition waits (tr : list event) : list Z :=
  omap (fun ev => match ev with EvSleep secs => Some secs | _ => None end) tr.

(** The results of the calls of a trace, in order. *)
Definition call_results (tr : list event) : list (outcome dict) :=
  omap (fun ev => match ev with EvCall _ res => Some res | _ => None end) tr.

(** A call that came back with a retryable Failure. *)
Definition retryable_return (res : outcome dict) : Prop :=
  match res with
  | Returned d => is_retryable_failure d = true
  | Raised _ => False
  end.

(** An operation that returns a retryable Failure on every call, whatever
    the outside state. *)
Definition always_retryable {Env : Type} (func : Operation Env) (args : dict)
    : Prop :=
  forall e, exists d e',
    func args e = (Returned d, e') /\ is_retryable_failure d = true.

(** The effects of an iteration whose call came back with a retryable
    Failure: the call, then the two prints and the wait unless the attempt
    is the last one. *)
Definition retry_events (args d : dict) (max_retries attempt : Z) : list event :=
  EvCall args (Returned d) ::
  (if attempt <? max_retries - 1 then
     [EvPrint (MsgRetryableError (py_get d "error"));
      EvPrint (MsgWaiting (2 ^ attempt) (attempt + 1) max_retries);
      EvSleep (2 ^ attempt)]
   else []).

(** The runs of the loop over the attempts [xs], as the events they add to
    the trace and the way the loop ends: [Returned None] when the attempts
    are used up, [Returned (Some d)] when the function returns [d] from
    inside the loop, [Raised e] when the operation raised. *)
Inductive loop_run (args : dict) (max_retries : Z)
    : list Z -> outcome (option dict) -> list event -> Prop :=
  | run_exhausted :
      loop_run args max_retries [] (Returned None) []
  | run_retry x xs d o tr :
      is_retryable_failure d = true ->
      loop_run args max_retries xs o tr ->
      loop_run args max_retries (x :: xs) o
        (retry_events args d max_retries x ++ tr)
  | run_return x xs d :
      returns_immediately d = true ->
      loop_run args max_retries (x :: xs) (Returned (Some d))
        [EvCall args (Returned d)]
  | run_raise x xs e :
      loop_run args max_retries (x :: xs) (Raised e) [EvCall args (Raised e)].

(** ** Concrete worlds and test doubles *)

(** An outside state on which the passage of time has no effect. *)
Definition no_clock : Z -> unit -> unit := fun _ e => e.

Definition w0 : World unit := MkWorld tt (fun _ => false) [].

(** A world whose cancellation signal fires during the first wait. *)
Definition w_cancel : World unit := MkWorld tt (fun k => (k =? 0)%nat) [].

(** The keyword arguments of the demo scenario "Retryable - timeout". *)
Definition timeout_args : dict :=
  {[ "order_id" := PyStr "ORD-67890"; "simulate_error" := PyStr "timeout" ]}.

(** A back end that times out on its first two calls and answers on the
    third; the outside state counts the calls made so far. *)
Definition flaky_order_status : Operation nat :=
  fun args calls_so_far =>
    match bind_kwargs "order_id" args with
    | Some (id, _) =>
        (Returned
           (get_order_status id
              (if (calls_so_far <? 2)%nat then Some "timeout" else None)),
         S calls_so_far)
    | None =>
        (Raised (PyExn "TypeError" "arguments do not match the signature"),
         calls_so_far)
    end.

(** An upstream layer that has already given up: its Failure carries the
    code ["max_retries"] and is not retryable. *)
Definition gateway_gave_up : Operation unit :=
  fun _ e =>
    (Returned
       {[ "error" := PyStr "max_retries";
          "message" := PyStr "Failed after 3 attempts";
          "retryable" := PyBool false ]},
     e).

(** A Failure without a ["retryable"] entry. *)
Definition bare_error : Operation unit :=
  fun _ e => (Returned {[ "error" := PyStr "boom" ]}, e).

(** ** Further readings of a run *)

(** Total time slept in a trace. *)
Definition total_wait (tr : list event) : Z := foldr Z.add 0 (waits tr).

(** The waits of the backoff in a run of [c] calls: 1, 2, 4, ..., one
    after each call but the last. *)
Definition backoff_waits (c : nat) : list Z :=
  (fun i : nat => 2 ^ Z.of_nat i) <$> seq 0 (c - 1).

(** The event is not a call, or is a call of [func] on [args] that really
    gave this result in some outside state. *)
Definition genuine_call {Env : Type} (func : Operation Env) (args : dict)
    (ev : event) : Prop :=
  match ev with
  | EvCall a res => a = args /\ exists e e', func args e = (res, e')
  | _ => True
  end.

(** What a back end can return: a retryable Failure, a Success, or the
    Failure "not_found". *)
Definition backend_result (d : dict) : Prop :=
  is_retryable_failure d = true \/
  is_success d = true \/
  exists msg : string,
    d = {[ "error" := PyStr "not_found"; "message" := PyStr msg;
           "retryable" := PyBool false ]}.

(** ** The agent around the retry loop *)

(** One tool call of a model reply: its id, the name of the function and
    the JSON text of the arguments. *)
Record tool_call : Type := ToolCall {
  tc_id : string;
  tc_name : string;
  tc_arguments : string
}.

(** The message of a model reply, [response.choices[0].message].  An
    absent list of tool calls and an empty one are the same to this module,
    which only tests the list for truth and takes its first element. *)
Record response_message : Type := ResponseMessage {
  rm_content : option string;
  rm_tool_calls : list tool_call
}.

(** The entries of [messages].  The dict of [ChatTool] stands for its JSON
    text, [json.dumps(result)]. *)
Inductive chat_message : Type :=
  | ChatSystem (content : string)
  | ChatUser (content : string)
  | ChatAssistant (m : response_message)
  | ChatTool (tool_call_id : string) (content : dict).

(** A call of [client.chat.completions.create]; [req_tools] tells whether
    the tool schemas are passed. *)
Record chat_request : Type := ChatRequest {
  req_model : string;
  req_messages : list chat_message;
  req_tools : bool
}.

(** The [print] statements of [run_agent_with_fallback], with the values
    they format. *)
Inductive agent_print : Type :=
  | PrUser (user_message : string)
  | PrSimulating (simulate_error : string)
  | PrAgent (content : option string)
  | PrCalling (function_name : string) (arg_id : pyval)
  | PrError (code msg : pyval)
  | PrSuccess (result : dict).

(** What a run of the agent does, in program order: its own prints, its
    requests to the model with their replies, and the events of the retry
    loop. *)
Inductive agent_event : Type :=
  | AgPrint (p : agent_print)
  | AgChat (req : chat_request) (res : outcome response_message)
  | AgRetry (ev : event).

Definition system_prompt : string :=
  "You are a customer support agent for Globomantics.
Use get_order_status for order questions and check_inventory for stock questions.
Be helpful and concise.".

(** [a or b] *)
Definition py_or (a b : pyval) : pyval := if truthy a then a else b.

(** The truth value of the parameter [simulate_error]: [None] and the empty
    string are falsy. *)
Definition simulation (simulate_error : option string) : option string :=
  match simulate_error with
  | Some s => if String.eqb s "" then None else Some s
  | None => None
  end.

(** [get_fallback_response(v)] for any value [v]: no key of [fallbacks]
    equals a value that is not a string, and a list cannot be looked up. *)
Definition fallback_response_of (v : pyval) : outcome string :=
  match v with
  | PyStr code => Returned (get_fallback_response code)
  | PyList _ => Raised (PyExn "TypeError" "unhashable type: 'list'")
  | _ => Returned generic_fallback
  end.

Section Agent.

Variable Env : Type.
Variable elapse : Z -> Env -> Env.

(** The hosted model: the reply to a request, read off as
    [response.choices[0].message], or the exception of the request. *)
Variable chat_create : chat_request -> Env -> outcome response_message * Env.

(** [json.loads] on the arguments of a tool call.  A text that is no JSON
    object is taken to raise here: the code uses the result as a dict right
    away, before any other effect. *)
Variable json_loads : string -> outcome dict.

Record Session : Type := MkSession {
  s_env : Env;
  s_cancel : nat -> bool;
  s_log : list agent_event
}.

Definition Agent (A : Type) : Type := Session -> outcome A * Session.

Definition agent_ret {A} (a : A) : Agent A := fun s => (Returned a, s).

Definition agent_bind {A B} (k : A -> Agent B) (m : Agent A) : Agent B :=
  fun s =>
    match m s with
    | (Returned a, s') => k a s'
    | (Raised e, s') => (Raised e, s')
    end.

#[global] Instance Agent_ret : MRet Agent := @agent_ret.
#[global] Instance Agent_bind : MBind Agent := @agent_bind.

(** A pure step that may raise. *)
Definition agent_lift {A} (o : outcome A) : Agent A := fun s => (o, s).

Definition agent_print_line (p : agent_print) : Agent unit :=
  fun s =>
    (Returned tt, MkSession (s_env s) (s_cancel s) (s_log s ++ [AgPrint p])).

Definition agent_chat (req : chat_request) : Agent response_message :=
  fun s =>
    let '(res, e') := chat_create req (s_env s) in
    (res, MkSession e' (s_cancel s) (s_log s ++ [AgChat req res])).

(** [execute_with_retry(func, args)] with the default budget of 3, its
    events entering the log of the agent. *)
Definition agent_retry (func : Operation Env) (args : dict) : Agent dict :=
  fun s =>
    let '(res, w') :=
      execute_with_retry elapse func args 3
        (MkWorld (s_env s) (s_cancel s) []) in
    (res,
     MkSession (env w') (s_cancel s) (s_log s ++ (AgRetry <$> trace w'))).

Definition available_functions : gmap string (Operation Env) :=
  {[ "get_order_status" := op_get_order_status;
     "check_inventory" := op_check_inventory ]}.

(** [d[key]] *)
Definition py_getitem (d : dict) (key : string) : outcome pyval :=
  match d !! key with
  | Some v => Returned v
  | None => Raised (PyExn "KeyError" key)
  end.

Definition run_agent_with_fallback (user_message : string)
    (simulate_error : option string) : Agent unit :=
  agent_print_line (PrUser user_message);;
  match simulation simulate_error with
  | Some s => agent_print_line (PrSimulating s)
  | None => mret tt
  end;;
  let messages := [ChatSystem system_prompt; ChatUser user_message] in
  response_message ← agent_chat (ChatRequest "gpt-5-mini" messages true);
  match rm_tool_calls response_message with
  | [] => agent_print_line (PrAgent (rm_content response_message))
  | tool_call :: _ =>
      let function_name := tc_name tool_call in
      loaded ← agent_lift (json_loads (tc_arguments tool_call));
      let function_args :=
        match simulation simulate_error with
        | Some s => <[ "simulate_error" := PyStr s ]> loaded
        | None => loaded
        end in
      let arg_id :=
        py_or (py_get function_args "order_id")
              (py_get function_args "product_id") in
      agent_print_line (PrCalling function_name arg_id);;
      func ← agent_lift
               match available_functions !! function_name with
               | Some func => Returned func
               | None => Raised (PyExn "KeyError" function_name)
               end;
      result ← agent_retry func function_args;
      if py_in "error" result then
        code ← agent_lift (py_getitem result "error");
        msg ← agent_lift (py_getitem result "message");
        agent_print_line (PrError code msg);;
        text ← agent_lift (fallback_response_of code);
        agent_print_line (PrAgent (Some text))
      else
        agent_print_line (PrSuccess result);;
        final ← agent_chat
                  (ChatRequest "gpt-5-mini"
                     (messages ++
                        [ChatAssistant response_message;
                         ChatTool (tc_id tool_call) result])
                     false);
        agent_print_line (PrAgent (rm_content final))
  end.

End Agent.

Arguments MkSession {Env} s_env s_cancel s_log.
Arguments s_env {Env} s.
Arguments s_cancel {Env} s.
Arguments s_log {Env} s.
Arguments agent_lift {Env A} o s.
Arguments agent_print_line {Env} p s.
Arguments agent_chat {Env} chat_create req s.
Arguments agent_retry {Env} elapse func args s.
Arguments available_functions {Env}.
Arguments run_agent_with_fallback {Env} elapse chat_create json_loads
  user_message simulate_error s.

(** The requests to the model in a log. *)
Definition chat_requests (log : list agent_event) : list chat_request :=
  omap (fun ev => match ev with AgChat req _ => Some req | _ => None end) log.

(** The events of the retry loop in a log. *)
Definition retry_trace (log : list agent_event) : list event :=
  omap (fun ev => match ev with AgRetry ev => Some ev | _ => None end) log.

(** ** Test doubles for the agent *)

(** A model that answers the first request (the one with the tool
    schemas) with the given reply and any later request with a fixed
    sentence. *)
Definition scripted_model (reply : response_message)
    : chat_request -> unit -> outcome response_message * unit :=
  fun req e =>
    if req_tools req then (Returned reply, e)
    else (Returned (ResponseMessage (Some "Your order was delivered.") []), e).

(** [json.loads] on an arguments text that denotes the dict [d]. *)
Definition loads_as (d : dict) : string -> outcome dict :=
  fun _ => Returned d.

(** A reply that asks for one call of the function [name]. *)
Definition reply_calling (name : string) : response_message :=
  ResponseMessage None [ToolCall "call_1" name "arguments"].

Definition session0 : Session unit := MkSession tt (fun _ => false) [].

(** ** Waits that a cancellation interrupts *)

(** The exception of the default handler of SIGINT. *)
Definition KeyboardInterrupt : pyexn := PyExn "KeyboardInterrupt" "".

Section Interruptible.

Variable Env : Type.
Variable elapse : Z -> Env -> Env.

(** The exception that the host's cancellation raises into a wait. *)
Variable cancel_exn : pyexn.

(** [time.sleep(secs)] when the host cancels by raising an exception into
    the wait (a signal handler that raises), the only way in which a
    cancellation reaches this module.  The waits of a world are numbered
    from 0 in the order of its trace; when the signal fires during this
    one, the call ends with [cancel_exn] instead of returning, and the wait
    does not enter the trace.  The time that passed before the
    interruption is not accounted for. *)
Definition time_sleep_interruptible (secs : Z) : M Env unit :=
  fun w =>
    if cancel_at w (length (waits (trace w))) then (Raised cancel_exn, w)
    else time_sleep elapse secs w.

(** The body of the loop of [execute_with_retry], over that wait. *)
Definition attempt_body_interruptible (func : Operation Env) (args : dict)
    (max_retries : Z) (attempt : Z) : M Env (option dict) :=
  result ← call func args;
  if returns_immediately result then ret (Some result)
  else
    (if attempt <? max_retries - 1 then
       let wait_time := 2 ^ attempt in
       print (MsgRetryableError (py_get result "error"));;
       print (MsgWaiting wait_time (attempt + 1) max_retries);;
       time_sleep_interruptible wait_time
     else ret tt);;
    ret None.

(** [execute_with_retry], over that wait. *)
Definition execute_with_retry_interruptible (func : Operation Env)
    (args : dict) (max_retries : Z) : M Env dict :=
  r ← for_in (range max_retries)
        (attempt_body_interruptible func args max_retries);
  match r with
  | Some result => ret result
  | None => ret (max_retries_result max_retries)
  end.

End Interruptible.

Arguments time_sleep_interruptible {Env} elapse cancel_exn secs w.
Arguments attempt_body_interruptible {Env} elapse cancel_exn func args
  max_retries attempt w.
Arguments execute_with_retry_interruptible {Env} elapse cancel_exn func args
  max_retries w.

(** The events of an iteration whose wait is interrupted: the call and the
    two prints. *)
Definition interrupted_events (args d : dict) (max_retries attempt : Z)
    : list event :=
  [EvCall args (Returned d);
   EvPrint (MsgRetryableError (py_get d "error"));
   EvPrint (MsgWaiting (2 ^ attempt) (attempt + 1) max_retries)].

(** * Properties *)

(** ** One iteration of the loop *)

Lemma returns_immediately_spec (d : dict) :
  returns_immediately d = negb (is_retryable_failure d).
Proof.
  unfold returns_immediately, is_retryable_failure.
  by destruct (py_in "error" d), (truthy (py_get d "retryable")).
Qed.

Section Steps.

Context {Env : Type} (elapse : Z -> Env -> Env).
Context (func : Operation Env) (args : dict) (max_retries : Z).

Lemma attempt_body_return attempt (w : World Env) d e' :
  func args (env w) = (Returned d, e') ->
  returns_immediately d = true ->
  attempt_body elapse func args max_retries attempt w =
    (Returned (Some d),
     MkWorld e' (cancel_at w) (trace w ++ [EvCall args (Returned d)])).
Proof.
  intros Hf Hd.
  unfold attempt_body, mbind, M_bind, bind, call. rewrite Hf. simpl.
  by rewrite Hd.
Qed.

Lemma attempt_body_raise attempt (w : World Env) x e' :
  func args (env w) = (Raised x, e') ->
  attempt_body elapse func args max_retries attempt w =
    (Raised x, MkWorld e' (cancel_at w) (trace w ++ [EvCall args (Raised x)])).
Proof.
  intros Hf. unfold attempt_body, mbind, M_bind, bind, call. by rewrite Hf.
Qed.

Lemma attempt_body_retry attempt (w : World Env) d e' :
  func args (env w) = (Returned d, e') ->
  is_retryable_failure d = true ->
  attempt_body elapse func args max_retries attempt w =
    (Returned None,
     MkWorld
       (if attempt <? max_retries - 1 then elapse (2 ^ attempt) e' else e')
       (cancel_at w)
       (trace w ++ retry_events args d max_retries attempt)).
Proof.
  intros Hf Hd.
  unfold attempt_body, retry_events, mbind, M_bind, bind, call.
  rewrite Hf. simpl.
  rewrite returns_immediately_spec, Hd. simpl.
  destruct (attempt <? max_retries - 1); simpl.
  - unfold log; simpl. by rewrite <- !app_assoc.
  - done.
Qed.

End Steps.

(** ** The loop and the function around it *)

Lemma range_nonpositive n : n <= 0 -> range n = [].
Proof. intros Hn. unfold range. by replace (Z.to_nat n) with 0%nat by lia. Qed.

Lemma range_positive n : 1 <= n -> exists xs, range n = 0 :: xs.
Proof.
  intros Hn. unfold range.
  destruct (Z.to_nat n) as [|k] eqn:Hk; [lia|].
  simpl. eauto.
Qed.

Lemma length_range n : length (range n) = Z.to_nat n.
Proof. unfold range. by rewrite length_fmap, length_seq. Qed.

Lemma max_retries_result_code n :
  error_code (max_retries_result n) = Some "max_retries".
Proof. reflexivity. Qed.

Section Loop.

Context {Env : Type} (elapse : Z -> Env -> Env).
Context (func : Operation Env) (args : dict).

Lemma for_in_cons {A} (body : Z -> M Env (option A)) x xs (w : World Env) :
  for_in (x :: xs) body w =
    match body x w with
    | (Returned (Some a), w') => (Returned (Some a), w')
    | (Returned None, w') => for_in xs body w'
    | (Raised e, w') => (Raised e, w')
    end.
Proof.
  simpl. unfold mbind, M_bind, bind.
  by destruct (body x w) as [[[a|]|e] w'].
Qed.

Lemma execute_with_retry_unfold max_retries (w : World Env) :
  execute_with_retry elapse func args max_retries w =
    match for_in (range max_retries)
            (attempt_body elapse func args max_retries) w with
    | (Returned (Some result), w') => (Returned result, w')
    | (Returned None, w') => (Returned (max_retries_result max_retries), w')
    | (Raised e, w') => (Raised e, w')
    end.
Proof.
  unfold execute_with_retry, mbind, M_bind, bind.
  by destruct (for_in _ _ w) as [[[a|]|e] w'].
Qed.

(** With a budget below one the loop body never runs. *)
Lemma execute_with_retry_nonpositive max_retries (w : World Env) :
  max_retries <= 0 ->
  execute_with_retry elapse func args max_retries w =
    (Returned (max_retries_result max_retries), w).
Proof.
  intros Hn. rewrite execute_with_retry_unfold, range_nonpositive by done.
  reflexivity.
Qed.

(** A first result that is a Success or a Failure that is not retryable
    ends the function. *)
Lemma execute_with_retry_first max_retries (w : World Env) d e' :
  1 <= max_retries ->
  func args (env w) = (Returned d, e') ->
  returns_immediately d = true ->
  execute_with_retry elapse func args max_retries w =
    (Returned d,
     MkWorld e' (cancel_at w) (trace w ++ [EvCall args (Returned d)])).
Proof.
  intros Hn Hf Hd.
  destruct (range_positive max_retries Hn) as [xs Hxs].
  rewrite execute_with_retry_unfold, Hxs, for_in_cons.
  by rewrite (attempt_body_return elapse func args max_retries 0 w d e').
Qed.

(** Three attempts that all come back with a retryable Failure. *)
Lemma execute_with_retry_three_steps (w : World Env) d0 d1 d2 e1 e2 e3 :
  func args (env w) = (Returned d0, e1) ->
  is_retryable_failure d0 = true ->
  func args (elapse 1 e1) = (Returned d1, e2) ->
  is_retryable_failure d1 = true ->
  func args (elapse 2 e2) = (Returned d2, e3) ->
  is_retryable_failure d2 = true ->
  execute_with_retry elapse func args 3 w =
    (Returned (max_retries_result 3),
     MkWorld e3 (cancel_at w)
       (trace w ++
          [EvCall args (Returned d0);
           EvPrint (MsgRetryableError (py_get d0 "error"));
           EvPrint (MsgWaiting 1 1 3);
           EvSleep 1;
           EvCall args (Returned d1);
           EvPrint (MsgRetryableError (py_get d1 "error"));
           EvPrint (MsgWaiting 2 2 3);
           EvSleep 2;
           EvCall args (Returned d2)])).
Proof.
  intros Hf0 Hd0 Hf1 Hd1 Hf2 Hd2.
  rewrite execute_with_retry_unfold.
  change (range 3) with [0; 1; 2].
  rewrite for_in_cons,
    (attempt_body_retry elapse func args 3 0 w d0 e1) by done.
  rewrite for_in_cons.
  erewrite (attempt_body_retry elapse func args 3 1 _ d1 e2) by done.
  rewrite for_in_cons.
  erewrite (attempt_body_retry elapse func args 3 2 _ d2 e3) by done.
  simpl. by rewrite <- !app_assoc.
Qed.

End Loop.

(** ** The shape of every run *)

Lemma count_calls_app (tr1 tr2 : list event) :
  count_calls (tr1 ++ tr2) = (count_calls tr1 + count_calls tr2)%nat.
Proof. unfold count_calls. by rewrite filter_app, length_app. Qed.

Lemma call_results_app (tr1 tr2 : list event) :
  call_results (tr1 ++ tr2) = call_results tr1 ++ call_results tr2.
Proof. apply omap_app. Qed.

Lemma count_calls_retry_events args d max_retries attempt :
  count_calls (retry_events args d max_retries attempt) = 1%nat.
Proof. unfold retry_events. by destruct (attempt <? max_retries - 1). Qed.

Lemma call_results_retry_events args d max_retries attempt :
  call_results (retry_events args d max_retries attempt) = [Returned d].
Proof. unfold retry_events. by destruct (attempt <? max_retries - 1). Qed.

Section Runs.

Context {Env : Type} (elapse : Z -> Env -> Env).
Context (func : Operation Env) (args : dict) (max_retries : Z).

(** Every execution of the loop is one of these runs. *)
Lemma for_in_loop_run xs (w : World Env) :
  exists tr : list event,
    loop_run args max_retries xs
      (for_in xs (attempt_body elapse func args max_retries) w).1 tr /\
    trace (for_in xs (attempt_body elapse func args max_retries) w).2
      = trace w ++ tr /\
    cancel_at (for_in xs (attempt_body elapse func args max_retries) w).2
      = cancel_at w.
Proof.
  revert w. induction xs as [|x xs IH]; intros w.
  - exists []. simpl. rewrite app_nil_r. repeat split. constructor.
  - rewrite for_in_cons.
    destruct (func args (env w)) as [[d|ex] e'] eqn:Hf.
    + destruct (returns_immediately d) eqn:Hd.
      * rewrite (attempt_body_return elapse func args max_retries x w d e')
          by done.
        eexists. simpl. repeat split. by constructor.
      * assert (is_retryable_failure d = true) as Hr.
        { rewrite returns_immediately_spec in Hd.
          by destruct (is_retryable_failure d). }
        rewrite (attempt_body_retry elapse func args max_retries x w d e')
          by done.
        match goal with |- context [for_in xs _ ?w1] =>
          destruct (IH w1) as (tr & Hrun & Htr & Hc) end.
        exists (retry_events args d max_retries x ++ tr).
        split; [by constructor|].
        rewrite Htr, Hc. cbn [trace cancel_at]. by rewrite app_assoc.
    + rewrite (attempt_body_raise elapse func args max_retries x w ex e')
        by done.
      eexists. simpl. repeat split. constructor.
Qed.

End Runs.

Section RunFacts.

Context (args : dict) (max_retries : Z).

(** At most one call per attempt. *)
Lemma loop_run_count_calls xs o tr :
  loop_run args max_retries xs o tr -> (count_calls tr <= length xs)%nat.
Proof.
  induction 1 as [|x xs d o tr Hd Hrun IH| |].
  - done.
  - rewrite count_calls_app, count_calls_retry_events. simpl. lia.
  - change (count_calls [EvCall args (Returned d)]) with 1%nat. simpl. lia.
  - change (count_calls [EvCall args (Raised e)]) with 1%nat. simpl. lia.
Qed.

(** A loop that uses up its attempts made one call per attempt, and every
    call came back with a retryable Failure. *)
Lemma loop_run_exhausted xs tr :
  loop_run args max_retries xs (Returned None) tr ->
  count_calls tr = length xs /\ Forall retryable_return (call_results tr).
Proof.
  remember (Returned None) as o eqn:Ho.
  induction 1 as [|x xs d o tr Hd Hrun IH| |]; try discriminate.
  - by split.
  - destruct (IH Ho) as [Hn Hall].
    rewrite count_calls_app, count_calls_retry_events, call_results_app,
      call_results_retry_events.
    split; [simpl; lia|]. by constructor.
Qed.

(** A dict returned from inside the loop is the result of the last call,
    and the calls before it came back with retryable Failures. *)
Lemma loop_run_returned xs r tr :
  loop_run args max_retries xs (Returned (Some r)) tr ->
  returns_immediately r = true /\
  exists pre : list event,
    tr = pre ++ [EvCall args (Returned r)] /\
    Forall retryable_return (call_results pre).
Proof.
  remember (Returned (Some r)) as o eqn:Ho.
  induction 1 as [|x xs d o tr Hd Hrun IH|x xs d Hd|]; try discriminate.
  - destruct (IH Ho) as (Hr & pre & -> & Hall).
    split; [done|].
    exists (retry_events args d max_retries x ++ pre).
    split; [by rewrite app_assoc|].
    rewrite call_results_app, call_results_retry_events. by constructor.
  - injection Ho as ->. split; [done|]. by exists [].
Qed.

(** Nothing follows a call whose result is a Success or a Failure that is
    not retryable: it ends the loop and is what the function returns. *)
Lemma loop_run_final_call xs o tr pre a d post :
  loop_run args max_retries xs o tr ->
  tr = pre ++ EvCall a (Returned d) :: post ->
  returns_immediately d = true ->
  post = [] /\ o = Returned (Some d).
Proof.
  intros Hrun. revert pre.
  induction Hrun as [|x xs d0 o tr Hd0 Hrun IH|x xs d0 Hd0|x xs e];
    intros pre Heq Hd.
  - by destruct pre.
  - assert (returns_immediately d0 = false) as Hd0'.
    { by rewrite returns_immediately_spec, Hd0. }
    unfold retry_events in Heq.
    destruct (x <? max_retries - 1); simpl in Heq.
    + destruct pre as [|p0 [|p1 [|p2 [|p3 pre]]]]; simplify_eq/=;
        [congruence|]. by eapply IH.
    + destruct pre as [|p0 pre]; simplify_eq/=; [congruence|].
      by eapply IH.
  - destruct pre as [|p0 [|p1 pre]]; simplify_eq/=. done.
  - destruct pre as [|p0 [|p1 pre]]; simplify_eq/=.
Qed.

End RunFacts.

Section Executions.

Context {Env : Type} (elapse : Z -> Env -> Env).
Context (func : Operation Env) (args : dict).

Lemma for_in_always_retryable max_retries xs (w : World Env) :
  always_retryable func args ->
  (for_in xs (attempt_body elapse func args max_retries) w).1 = Returned None.
Proof.
  intros Hop. revert w. induction xs as [|x xs IH]; intros w; [done|].
  destruct (Hop (env w)) as (d & e' & Hf & Hd).
  rewrite for_in_cons.
  rewrite (attempt_body_retry elapse func args max_retries x w d e') by done.
  match goal with |- context [for_in xs _ ?w1] =>
    specialize (IH w1); destruct (for_in xs _ w1) as [[[r|]|ex] w'] end;
    done.
Qed.

(** What the function returns and adds to the trace, from the run of its
    loop. *)
Lemma execute_with_retry_run max_retries (w : World Env) :
  exists (o : outcome (option dict)) (tr : list event),
    loop_run args max_retries (range max_retries) o tr /\
    trace (execute_with_retry elapse func args max_retries w).2
      = trace w ++ tr /\
    cancel_at (execute_with_retry elapse func args max_retries w).2
      = cancel_at w /\
    (execute_with_retry elapse func args max_retries w).1 =
      match o with
      | Returned (Some result) => Returned result
      | Returned None => Returned (max_retries_result max_retries)
      | Raised ex => Raised ex
      end.
Proof.
  destruct (for_in_loop_run elapse func args max_retries
              (range max_retries) w) as (tr & Hrun & Htr & Hc).
  rewrite execute_with_retry_unfold.
  destruct (for_in _ _ w) as [[[r|]|ex] w']; simpl in *; eauto 10.
Qed.

(** The run of an operation that always fails retryably, under any
    budget. *)
Lemma execute_with_retry_exhausted max_retries (w : World Env) :
  always_retryable func args ->
  exists (w' : World Env) (tr : list event),
    execute_with_retry elapse func args max_retries w =
      (Returned (max_retries_result max_retries), w') /\
    trace w' = trace w ++ tr /\
    count_calls tr = Z.to_nat max_retries /\
    Forall retryable_return (call_results tr).
Proof.
  intros Hop.
  pose proof (for_in_always_retryable max_retries (range max_retries) w Hop)
    as Hnone.
  destruct (for_in_loop_run elapse func args max_retries
              (range max_retries) w) as (tr & Hrun & Htr & _).
  rewrite Hnone in Hrun.
  apply loop_run_exhausted in Hrun as [Hn Hall].
  rewrite length_range in Hn.
  rewrite execute_with_retry_unfold.
  destruct (for_in _ _ w) as [o w']; simpl in *; subst o. eauto 10.
Qed.

End Executions.

(** ** The scenarios of the demo *)

Example str_of_int_examples :
  str_of_int 3 = "3" /\ str_of_int 0 = "0" /\ str_of_int (-12) = "-12".
Proof. by vm_compute. Qed.

(** "Success": the order is found at the first call. *)
Example scenario_success :
  execute_with_retry no_clock op_get_order_status
      {[ "order_id" := PyStr "ORD-12345" ]} 3 w0 =
    (Returned
       {[ "order_id" := PyStr "ORD-12345"; "status" := PyStr "delivered";
          "items" := PyList [PyStr "Blue Widget"] ]},
     MkWorld tt (fun _ => false)
       [EvCall {[ "order_id" := PyStr "ORD-12345" ]}
          (Returned
             {[ "order_id" := PyStr "ORD-12345"; "status" := PyStr "delivered";
                "items" := PyList [PyStr "Blue Widget"] ]})]).
Proof. by vm_compute. Qed.

(** "Retryable - timeout": two waits, announced as attempts 1/3 and 2/3,
    then "Failed after 3 attempts" and the fallback text for
    ["max_retries"]. *)
Example scenario_timeout :
  let timed_out : dict :=
    {[ "error" := PyStr "timeout"; "message" := PyStr "Request timed out";
       "retryable" := PyBool true ]} in
  execute_with_retry no_clock op_get_order_status timeout_args 3 w0 =
    (Returned
       {[ "error" := PyStr "max_retries";
          "message" := PyStr "Failed after 3 attempts";
          "retryable" := PyBool false ]},
     MkWorld tt (fun _ => false)
       [EvCall timeout_args (Returned timed_out);
        EvPrint (MsgRetryableError (PyStr "timeout"));
        EvPrint (MsgWaiting 1 1 3);
        EvSleep 1;
        EvCall timeout_args (Returned timed_out);
        EvPrint (MsgRetryableError (PyStr "timeout"));
        EvPrint (MsgWaiting 2 2 3);
        EvSleep 2;
        EvCall timeout_args (Returned timed_out)]) /\
  get_fallback_response "max_retries" =
    "I'm having trouble accessing our systems. Let me connect you with support@globomantics.com".
Proof. by vm_compute. Qed.

(** "Non-retryable - not found": one call, no wait. *)
Example scenario_not_found :
  let not_found : dict :=
    {[ "error" := PyStr "not_found";
       "message" := PyStr "Order ORD-99999 not found";
       "retryable" := PyBool false ]} in
  execute_with_retry no_clock op_get_order_status
      {[ "order_id" := PyStr "ORD-99999" ]} 3 w0 =
    (Returned not_found,
     MkWorld tt (fun _ => false)
       [EvCall {[ "order_id" := PyStr "ORD-99999" ]} (Returned not_found)]) /\
  get_fallback_response "not_found" =
    "I couldn't find that. Please double-check the ID and try again.".
Proof. by vm_compute. Qed.

(** A keyword that is no parameter of the back end makes the call raise,
    and the exception leaves the function. *)
Example scenario_bad_keyword :
  execute_with_retry no_clock op_get_order_status
      {[ "order_id" := PyStr "ORD-12345"; "colour" := PyStr "blue" ]} 3 w0 =
    (Raised (PyExn "TypeError" "arguments do not match the signature"),
     MkWorld tt (fun _ => false)
       [EvCall {[ "order_id" := PyStr "ORD-12345"; "colour" := PyStr "blue" ]}
          (Raised (PyExn "TypeError" "arguments do not match the signature"))]).
Proof. by vm_compute. Qed.

(** ** Runs of three attempts *)

(** C1: an operation that returns a retryable Failure on every call, run
    with [max_retries = 3], is called exactly three times, with a wait of 1
    after attempt 0, a wait of 2 after attempt 1 and none after attempt 2,
    and the function returns the terminal Failure with code
    ["max_retries"]. *)
Theorem retry_exhausts_three_attempts {Env : Type} (elapse : Z -> Env -> Env)
    (func : Operation Env) (args : dict) (w : World Env) :
  always_retryable func args ->
  exists (d0 d1 d2 r : dict) (w' : World Env) (tr : list event),
    execute_with_retry elapse func args 3 w = (Returned r, w') /\
    trace w' = trace w ++ tr /\
    tr = [EvCall args (Returned d0);
          EvPrint (MsgRetryableError (py_get d0 "error"));
          EvPrint (MsgWaiting 1 1 3);
          EvSleep 1;
          EvCall args (Returned d1);
          EvPrint (MsgRetryableError (py_get d1 "error"));
          EvPrint (MsgWaiting 2 2 3);
          EvSleep 2;
          EvCall args (Returned d2)] /\
    count_calls tr = 3%nat /\
    waits tr = [1; 2] /\
    is_failure r = true /\
    error_code r = Some "max_retries" /\
    r !! "retryable" = Some (PyBool false).
Proof.
  intros Hop.
  destruct (Hop (env w)) as (d0 & e1 & Hf0 & Hd0).
  destruct (Hop (elapse 1 e1)) as (d1 & e2 & Hf1 & Hd1).
  destruct (Hop (elapse 2 e2)) as (d2 & e3 & Hf2 & Hd2).
  exists d0, d1, d2, (max_retries_result 3). eexists _, _.
  split.
  { by apply (execute_with_retry_three_steps elapse func args w
                d0 d1 d2 e1 e2 e3). }
  done.
Qed.

Lemma retry_exhausts_three_attempts_witness :
  exists (d0 d1 d2 r : dict) (w' : World unit) (tr : list event),
    execute_with_retry no_clock op_get_order_status timeout_args 3 w0
      = (Returned r, w') /\
    trace w' = trace w0 ++ tr /\
    tr = [EvCall timeout_args (Returned d0);
          EvPrint (MsgRetryableError (py_get d0 "error"));
          EvPrint (MsgWaiting 1 1 3);
          EvSleep 1;
          EvCall timeout_args (Returned d1);
          EvPrint (MsgRetryableError (py_get d1 "error"));
          EvPrint (MsgWaiting 2 2 3);
          EvSleep 2;
          EvCall timeout_args (Returned d2)] /\
    count_calls tr = 3%nat /\
    waits tr = [1; 2] /\
    is_failure r = true /\
    error_code r = Some "max_retries" /\
    r !! "retryable" = Some (PyBool false).
Proof.
  apply (retry_exhausts_three_attempts no_clock op_get_order_status
           timeout_args w0).
  intros e. eexists _, e. split; vm_compute; reflexivity.
Defined.

(** C6: an operation that fails retryably on attempts 0 and 1 and succeeds
    on attempt 2, run with [max_retries = 3], is called exactly three times
    with exactly two waits, of 1 and of 2, and the function returns the
    Success of attempt 2. *)
Theorem retry_succeeds_on_third_attempt {Env : Type} (elapse : Z -> Env -> Env)
    (func : Operation Env) (args : dict) (w : World Env)
    (d0 d1 d2 : dict) (e1 e2 e3 : Env) :
  func args (env w) = (Returned d0, e1) ->
  is_retryable_failure d0 = true ->
  func args (elapse 1 e1) = (Returned d1, e2) ->
  is_retryable_failure d1 = true ->
  func args (elapse 2 e2) = (Returned d2, e3) ->
  is_success d2 = true ->
  exists tr : list event,
    execute_with_retry elapse func args 3 w =
      (Returned d2, MkWorld e3 (cancel_at w) (trace w ++ tr)) /\
    tr = [EvCall args (Returned d0);
          EvPrint (MsgRetryableError (py_get d0 "error"));
          EvPrint (MsgWaiting 1 1 3);
          EvSleep 1;
          EvCall args (Returned d1);
          EvPrint (MsgRetryableError (py_get d1 "error"));
          EvPrint (MsgWaiting 2 2 3);
          EvSleep 2;
          EvCall args (Returned d2)] /\
    count_calls tr = 3%nat /\
    waits tr = [1; 2].
Proof.
  intros Hf0 Hd0 Hf1 Hd1 Hf2 Hd2.
  eexists. split; [|split; [reflexivity|by split]].
  rewrite execute_with_retry_unfold.
  change (range 3) with [0; 1; 2].
  rewrite for_in_cons, (attempt_body_retry elapse func args 3 0 w d0 e1) by done.
  rewrite for_in_cons.
  erewrite (attempt_body_retry elapse func args 3 1 _ d1 e2) by done.
  rewrite for_in_cons.
  erewrite (attempt_body_return elapse func args 3 2 _ d2 e3); [|done|].
  - simpl. by rewrite <- !app_assoc.
  - unfold returns_immediately. unfold is_success in Hd2. by rewrite Hd2.
Qed.

Lemma retry_succeeds_on_third_attempt_witness :
  exists tr : list event,
    execute_with_retry (fun _ n => n) flaky_order_status
        {[ "order_id" := PyStr "ORD-12345" ]} 3 (MkWorld 0%nat (fun _ => false) []) =
      (Returned (get_order_status "ORD-12345" None),
       MkWorld 3%nat (fun _ => false) ([] ++ tr)) /\
    tr = [EvCall {[ "order_id" := PyStr "ORD-12345" ]}
            (Returned (get_order_status "ORD-12345" (Some "timeout")));
          EvPrint (MsgRetryableError (PyStr "timeout"));
          EvPrint (MsgWaiting 1 1 3);
          EvSleep 1;
          EvCall {[ "order_id" := PyStr "ORD-12345" ]}
            (Returned (get_order_status "ORD-12345" (Some "timeout")));
          EvPrint (MsgRetryableError (PyStr "timeout"));
          EvPrint (MsgWaiting 2 2 3);
          EvSleep 2;
          EvCall {[ "order_id" := PyStr "ORD-12345" ]}
            (Returned (get_order_status "ORD-12345" None))] /\
    count_calls tr = 3%nat /\
    waits tr = [1; 2].
Proof.
  apply (retry_succeeds_on_third_attempt (fun _ n => n) flaky_order_status
           {[ "order_id" := PyStr "ORD-12345" ]}
           (MkWorld 0%nat (fun _ => false) [])
           (get_order_status "ORD-12345" (Some "timeout"))
           (get_order_status "ORD-12345" (Some "timeout"))
           (get_order_status "ORD-12345" None)
           1%nat 2%nat 3%nat);
    vm_compute; reflexivity.
Defined.

(** ** A first result that ends the function *)

(** C5: when the first attempt yields a Success, or a Failure with
    [retryable = False], the function returns that very dict after exactly
    one call of the operation, without any wait or further attempt. *)
Theorem first_result_returned_unchanged {Env : Type} (elapse : Z -> Env -> Env)
    (func : Operation Env) (args : dict) (max_retries : Z) (w : World Env)
    (d : dict) (e' : Env) :
  1 <= max_retries ->
  func args (env w) = (Returned d, e') ->
  is_success d = true \/
    (is_failure d = true /\ d !! "retryable" = Some (PyBool false)) ->
  exists tr : list event,
    execute_with_retry elapse func args max_retries w =
      (Returned d, MkWorld e' (cancel_at w) (trace w ++ tr)) /\
    tr = [EvCall args (Returned d)] /\
    count_calls tr = 1%nat /\
    waits tr = [].
Proof.
  intros Hn Hf Hd.
  exists [EvCall args (Returned d)]. split; [|done].
  apply execute_with_retry_first; [done..|].
  unfold returns_immediately.
  destruct Hd as [Hs|[_ Hr]].
  - unfold is_success in Hs. by rewrite Hs.
  - unfold py_get. rewrite Hr. simpl. by rewrite orb_true_r.
Qed.

Lemma first_result_returned_unchanged_witness :
  exists tr : list event,
    execute_with_retry no_clock op_get_order_status
        {[ "order_id" := PyStr "ORD-99999" ]} 3 w0 =
      (Returned (get_order_status "ORD-99999" None),
       MkWorld tt (cancel_at w0) (trace w0 ++ tr)) /\
    tr = [EvCall {[ "order_id" := PyStr "ORD-99999" ]}
            (Returned (get_order_status "ORD-99999" None))] /\
    count_calls tr = 1%nat /\
    waits tr = [].
Proof.
  apply (first_result_returned_unchanged no_clock op_get_order_status
           {[ "order_id" := PyStr "ORD-99999" ]} 3 w0
           (get_order_status "ORD-99999" None) tt).
  - lia.
  - vm_compute. reflexivity.
  - right. split; vm_compute; reflexivity.
Defined.

(** C9: a result with an ["error"] key whose ["retryable"] entry is absent
    or falsy is returned unchanged after a single call and without a wait,
    as is a Failure with [retryable = False]; a result without an
    ["error"] key is a Success whatever else it holds; and a result with
    an ["error"] key and a truthy ["retryable"] entry is never taken for a
    Success: the loop goes on. *)
Theorem error_key_alone_decides_success {Env : Type} (elapse : Z -> Env -> Env)
    (func : Operation Env) (args : dict) (max_retries : Z) (w : World Env)
    (d : dict) (e' : Env) :
  1 <= max_retries ->
  func args (env w) = (Returned d, e') ->
  let single_attempt :=
    (Returned d,
     MkWorld e' (cancel_at w) (trace w ++ [EvCall args (Returned d)])) in
  (is_Some (d !! "error") ->
   d !! "retryable" = None \/
     (exists v, d !! "retryable" = Some v /\ truthy v = false) ->
   execute_with_retry elapse func args max_retries w = single_attempt) /\
  (d !! "error" = None ->
   execute_with_retry elapse func args max_retries w = single_attempt) /\
  (is_Some (d !! "error") ->
   truthy (py_get d "retryable") = true ->
   (attempt_body elapse func args max_retries 0 w).1 = Returned None /\
   execute_with_retry elapse func args max_retries w <> single_attempt).
Proof.
  intros Hn Hf single_attempt. subst single_attempt.
  split; [|split].
  - intros [c Hc] Hr.
    apply execute_with_retry_first; [done..|].
    unfold returns_immediately, py_get.
    destruct Hr as [->|(v & -> & Hv)]; simpl; [|rewrite Hv];
      by rewrite orb_true_r.
  - intros Hnone.
    apply execute_with_retry_first; [done..|].
    unfold returns_immediately, py_in. by rewrite Hnone.
  - intros [c Hc] Hr.
    assert (is_retryable_failure d = true) as Hd.
    { unfold is_retryable_failure, py_in. by rewrite Hc, Hr. }
    rewrite (attempt_body_retry elapse func args max_retries 0 w d e') by done.
    split; [done|].
    destruct (execute_with_retry_run elapse func args max_retries w)
      as (o & tr & Hrun & Htr & _ & Hres).
    intros Heq. rewrite Heq in Htr, Hres. simpl in Htr, Hres.
    apply app_inv_head in Htr. subst tr.
    destruct o as [[r|]|ex]; simplify_eq.
    apply loop_run_returned in Hrun as [Himm _].
    rewrite returns_immediately_spec, Hd in Himm. discriminate.
Qed.

Lemma error_key_alone_decides_success_witness :
  let single_attempt :=
    (Returned ({[ "error" := PyStr "boom" ]} : dict),
     MkWorld tt (cancel_at w0)
       (trace w0 ++ [EvCall ∅ (Returned {[ "error" := PyStr "boom" ]})])) in
  (is_Some (({[ "error" := PyStr "boom" ]} : dict) !! "error") ->
   ({[ "error" := PyStr "boom" ]} : dict) !! "retryable" = None \/
     (exists v, ({[ "error" := PyStr "boom" ]} : dict) !! "retryable" = Some v /\
                truthy v = false) ->
   execute_with_retry no_clock bare_error ∅ 3 w0 = single_attempt) /\
  (({[ "error" := PyStr "boom" ]} : dict) !! "error" = None ->
   execute_with_retry no_clock bare_error ∅ 3 w0 = single_attempt) /\
  (is_Some (({[ "error" := PyStr "boom" ]} : dict) !! "error") ->
   truthy (py_get {[ "error" := PyStr "boom" ]} "retryable") = true ->
   (attempt_body no_clock bare_error ∅ 3 0 w0).1 = Returned None /\
   execute_with_retry no_clock bare_error ∅ 3 w0 <> single_attempt).
Proof.
  apply (error_key_alone_decides_success no_clock bare_error ∅ 3 w0
           {[ "error" := PyStr "boom" ]} tt).
  - lia.
  - reflexivity.
Defined.

(** ** The exhausted budget *)

(** C2: for a budget of at least one and an operation that returns only
    retryable Failures, the function returns the synthesized dict with code
    ["max_retries"], a message that states the number of attempts and
    [retryable = False]; that dict is none of the Failures the operation
    returned, and its code is none of the transient codes. *)
Theorem exhausted_budget_is_synthesized {Env : Type} (elapse : Z -> Env -> Env)
    (func : Operation Env) (args : dict) (max_retries : Z) (w : World Env) :
  1 <= max_retries ->
  always_retryable func args ->
  exists (r : dict) (w' : World Env) (tr : list event),
    execute_with_retry elapse func args max_retries w = (Returned r, w') /\
    trace w' = trace w ++ tr /\
    Z.of_nat (count_calls tr) = max_retries /\
    r = {[ "error" := PyStr "max_retries";
           "message" :=
             PyStr ("Failed after " +:+ str_of_int max_retries +:+ " attempts");
           "retryable" := PyBool false ]} /\
    (forall d, Returned d ∈ call_results tr -> r <> d) /\
    error_code r <> Some "timeout" /\
    error_code r <> Some "rate_limit" /\
    error_code r <> Some "service_unavailable".
Proof.
  intros Hn Hop.
  destruct (execute_with_retry_exhausted elapse func args max_retries w Hop)
    as (w' & tr & Hrun & Htr & Hcalls & Hall).
  exists (max_retries_result max_retries), w', tr.
  repeat split; try done.
  - lia.
  - intros d Hd Heq.
    rewrite Forall_forall in Hall. specialize (Hall _ Hd). simpl in Hall.
    rewrite <- Heq in Hall. discriminate.
Qed.

Lemma exhausted_budget_is_synthesized_witness :
  exists (r : dict) (w' : World unit) (tr : list event),
    execute_with_retry no_clock op_get_order_status timeout_args 2 w0
      = (Returned r, w') /\
    trace w' = trace w0 ++ tr /\
    Z.of_nat (count_calls tr) = 2 /\
    r = {[ "error" := PyStr "max_retries";
           "message" := PyStr "Failed after 2 attempts";
           "retryable" := PyBool false ]} /\
    (forall d, Returned d ∈ call_results tr -> r <> d) /\
    error_code r <> Some "timeout" /\
    error_code r <> Some "rate_limit" /\
    error_code r <> Some "service_unavailable".
Proof.
  apply (exhausted_budget_is_synthesized no_clock op_get_order_status
           timeout_args 2 w0).
  - lia.
  - intros e. eexists _, e. split; vm_compute; reflexivity.
Defined.

(** ** A budget below one *)

(** C10: for every [max_retries <= 0] the function calls the operation
    zero times and performs no wait (the world is left as it was), and
    returns the dict with code ["max_retries"], the message
    "Failed after <max_retries> attempts" and [retryable = False]. *)
Theorem nonpositive_budget_returns_max_retries {Env : Type}
    (elapse : Z -> Env -> Env) (func : Operation Env) (args : dict)
    (max_retries : Z) (w : World Env) :
  max_retries <= 0 ->
  execute_with_retry elapse func args max_retries w =
    (Returned
       {[ "error" := PyStr "max_retries";
          "message" :=
            PyStr ("Failed after " +:+ str_of_int max_retries +:+ " attempts");
          "retryable" := PyBool false ]},
     w).
Proof.
  intros Hn.
  rewrite execute_with_retry_unfold, range_nonpositive by done.
  reflexivity.
Qed.

Lemma nonpositive_budget_returns_max_retries_witness :
  execute_with_retry no_clock op_get_order_status timeout_args 0 w0 =
    (Returned
       {[ "error" := PyStr "max_retries";
          "message" := PyStr "Failed after 0 attempts";
          "retryable" := PyBool false ]},
     w0).
Proof.
  apply (nonpositive_budget_returns_max_retries no_clock op_get_order_status
           timeout_args 0 w0).
  lia.
Defined.

(** C3, as stated, fails: with [max_retries = 0] the function does not
    raise and its result does not carry the code
    ["invalid_configuration"]; it returns the ["max_retries"] Failure. *)
Lemma zero_budget_counterexample :
  exists r : dict,
    execute_with_retry no_clock op_get_order_status timeout_args 0 w0
      = (Returned r, w0) /\
    error_code r = Some "max_retries" /\
    error_code r <> Some "invalid_configuration".
Proof. eexists. by vm_compute. Qed.

(** C3, amended: with a budget below one the function makes no attempt and
    incurs no delay (the world is left as it was); it does not raise, and
    what it returns is the Failure with code ["max_retries"] and
    [retryable = False]. *)
Theorem budget_below_one_makes_no_attempt {Env : Type}
    (elapse : Z -> Env -> Env) (func : Operation Env) (args : dict)
    (max_retries : Z) (w : World Env) :
  max_retries < 1 ->
  exists r : dict,
    execute_with_retry elapse func args max_retries w = (Returned r, w) /\
    error_code r = Some "max_retries" /\
    r !! "retryable" = Some (PyBool false) /\
    error_code r <> Some "invalid_configuration".
Proof.
  intros Hn. exists (max_retries_result max_retries).
  split; [apply execute_with_retry_nonpositive; lia|done].
Qed.

Lemma budget_below_one_makes_no_attempt_witness :
  exists r : dict,
    execute_with_retry no_clock op_check_inventory
        {[ "product_id" := PyStr "blue-widget" ]} (-1) w0 = (Returned r, w0) /\
    error_code r = Some "max_retries" /\
    r !! "retryable" = Some (PyBool false) /\
    error_code r <> Some "invalid_configuration".
Proof.
  apply (budget_below_one_makes_no_attempt no_clock op_check_inventory
           {[ "product_id" := PyStr "blue-widget" ]} (-1) w0).
  lia.
Defined.

(** ** Invariants of every run *)

(** C8, as stated, fails: the function passes on a Failure with code
    ["max_retries"] that the operation itself returned, although the one
    attempt made did not yield a retryable Failure. *)
Lemma passed_on_max_retries_counterexample :
  exists (r : dict) (w' : World unit),
    execute_with_retry no_clock gateway_gave_up ∅ 3 w0 = (Returned r, w') /\
    error_code r = Some "max_retries" /\
    call_results (trace w') = [Returned r] /\
    is_retryable_failure r = false /\
    ~ Forall retryable_return (call_results (trace w')).
Proof.
  eexists _, _. split; [by vm_compute|].
  repeat split.
  intros Hall. apply Forall_cons_1 in Hall as [Hr _]. discriminate Hr.
Qed.

(** C8, amended: in every run, for every operation and every budget, the
    number of calls never exceeds the budget (there is none when the budget
    is below one); a call that yields a Failure which is not retryable is
    the last event of the run and its dict is what the function returns;
    and a result with code ["max_retries"] is returned only when every
    attempt made yielded a retryable Failure, or when it is the operation's
    own result of the last attempt, not retryable, passed on unchanged. *)
Theorem retry_loop_invariants {Env : Type} (elapse : Z -> Env -> Env)
    (func : Operation Env) (args : dict) (max_retries : Z) (w : World Env) :
  exists tr : list event,
    trace (execute_with_retry elapse func args max_retries w).2
      = trace w ++ tr /\
    (count_calls tr <= Z.to_nat max_retries)%nat /\
    (forall pre a d post,
        tr = pre ++ EvCall a (Returned d) :: post ->
        is_failure d = true ->
        is_retryable_failure d = false ->
        post = [] /\
        (execute_with_retry elapse func args max_retries w).1 = Returned d) /\
    (forall r,
        (execute_with_retry elapse func args max_retries w).1 = Returned r ->
        error_code r = Some "max_retries" ->
        Forall retryable_return (call_results tr) \/
        exists pre,
          tr = pre ++ [EvCall args (Returned r)] /\
          Forall retryable_return (call_results pre) /\
          is_retryable_failure r = false).
Proof.
  destruct (execute_with_retry_run elapse func args max_retries w)
    as (o & tr & Hrun & Htr & _ & Hres).
  exists tr. split; [done|]. split; [|split].
  - rewrite <- length_range. by eapply loop_run_count_calls.
  - intros pre a d post Heq _ Hd.
    assert (returns_immediately d = true) as Hd'.
    { by rewrite returns_immediately_spec, Hd. }
    destruct (loop_run_final_call _ _ _ _ _ _ _ _ _ Hrun Heq Hd') as [-> ->].
    by rewrite Hres.
  - intros r Hr _. rewrite Hres in Hr.
    destruct o as [[d|]|ex]; [|left|done].
    + injection Hr as ->. right.
      apply loop_run_returned in Hrun as (Himm & pre & -> & Hall).
      exists pre. repeat split; [done|].
      rewrite returns_immediately_spec in Himm.
      by destruct (is_retryable_failure r).
    + by apply loop_run_exhausted in Hrun as [_ Hall].
Qed.

(** ** Cancellation *)

(** The function never makes up a ["cancelled"] Failure: a result with
    that code is the dict that the last call of the operation returned. *)
Lemma cancelled_only_from_operation {Env : Type} (elapse : Z -> Env -> Env)
    (func : Operation Env) (args : dict) (max_retries : Z) (w : World Env)
    (r : dict) :
  (execute_with_retry elapse func args max_retries w).1 = Returned r ->
  error_code r = Some "cancelled" ->
  exists pre : list event,
    trace (execute_with_retry elapse func args max_retries w).2
      = trace w ++ pre ++ [EvCall args (Returned r)].
Proof.
  intros Hr Hcode.
  destruct (execute_with_retry_run elapse func args max_retries w)
    as (o & tr & Hrun & Htr & _ & Hres).
  rewrite Hres in Hr.
  destruct o as [[d|]|ex]; simplify_eq.
  apply loop_run_returned in Hrun as (_ & pre & -> & _).
  by exists pre.
Qed.


(** ** The fallback messages *)

Lemma get_fallback_response_unrecognized (error : string) :
  error ∉ recognized_codes -> get_fallback_response error = generic_fallback.
Proof.
  intros Hnot. unfold get_fallback_response, fallbacks, recognized_codes in *.
  rewrite !not_elem_of_cons in Hnot.
  destruct Hnot as (H1 & H2 & H3 & H4 & H5 & _).
  by rewrite !lookup_insert_ne, lookup_singleton_ne.
Qed.

(** C7: [get_fallback_response] is a function of its argument alone, defined
    on every string.  Each recognized code has its own text, different from
    the texts of the other codes and from the generic one; every other
    string gets the one generic message, which names the support contact;
    equal codes get equal messages. *)
Theorem fallback_response_table :
  get_fallback_response "not_found" =
    "I couldn't find that. Please double-check the ID and try again." /\
  get_fallback_response "timeout" =
    "Our system is running slow. Would you like me to try again?" /\
  get_fallback_response "rate_limit" =
    "We're experiencing high traffic. Please wait a moment." /\
  get_fallback_response "service_unavailable" =
    "Our system is temporarily unavailable. Try again in a few minutes." /\
  get_fallback_response "max_retries" =
    "I'm having trouble accessing our systems. Let me connect you with support@globomantics.com" /\
  NoDup (generic_fallback :: (get_fallback_response <$> recognized_codes)) /\
  (forall error : string,
      error ∉ recognized_codes ->
      get_fallback_response error = generic_fallback) /\
  (exists before after : string,
      generic_fallback = before +:+ "support@globomantics.com" +:+ after) /\
  (forall error : string, exists text : string,
      get_fallback_response error = text) /\
  (forall error1 error2 : string,
      error1 = error2 ->
      get_fallback_response error1 = get_fallback_response error2).
Proof.
  repeat split; try reflexivity.
  - apply (bool_decide_unpack _). by vm_compute.
  - apply get_fallback_response_unrecognized.
  - by exists "I encountered an issue. Please contact ", "".
  - intros error. by eexists.
  - by intros error1 error2 ->.
Qed.

Lemma fallback_response_table_witness :
  ("unknown_code" ∉ recognized_codes) /\
  get_fallback_response "unknown_code" =
    "I encountered an issue. Please contact support@globomantics.com" /\
  get_fallback_response "Timeout" = get_fallback_response "" .
Proof.
  assert (forall error : string,
             error ∉ recognized_codes ->
             get_fallback_response error = generic_fallback) as Hgen
    by apply fallback_response_table.
  split; [by apply (bool_decide_unpack _); vm_compute|].
  split.
  - apply Hgen. by apply (bool_decide_unpack _); vm_compute.
  - rewrite !Hgen; [done|by apply (bool_decide_unpack _); vm_compute..].
Defined.

(** * Further properties of the retry loop *)

(** ** The backoff *)

Lemma waits_app (tr1 tr2 : list event) :
  waits (tr1 ++ tr2) = waits tr1 ++ waits tr2.
Proof. apply omap_app. Qed.

Lemma waits_retry_events args d max_retries attempt :
  waits (retry_events args d max_retries attempt) =
    if attempt <? max_retries - 1 then [2 ^ attempt] else [].
Proof. unfold retry_events. by destruct (attempt <? max_retries - 1). Qed.

Lemma loop_run_cons_calls args max_retries x xs o tr :
  loop_run args max_retries (x :: xs) o tr -> (1 <= count_calls tr)%nat.
Proof.
  inversion 1; subst.
  - rewrite count_calls_app, count_calls_retry_events. lia.
  - by cbv.
  - by cbv.
Qed.

(** The waits of a run over the attempts [a], [a + 1], ..., up to the last
    attempt of the budget. *)
Lemma loop_run_waits_from args max_retries (a k : nat) o tr :
  loop_run args max_retries (Z.of_nat <$> seq a k) o tr ->
  k = 0%nat \/ Z.of_nat (a + k) = max_retries ->
  waits tr =
    (fun i : nat => 2 ^ Z.of_nat i) <$> seq a (count_calls tr - 1).
Proof.
  intros Hrun. remember (Z.of_nat <$> seq a k) as xs eqn:Hxs.
  revert a k Hxs.
  induction Hrun as [|x xs d o tr Hd Hrun IH|x xs d Hd|x xs e];
    intros a k Hxs Hk.
  - done.
  - destruct k as [|k]; [done|]. simpl in Hxs. injection Hxs as -> ->.
    destruct Hk as [|Hk]; [done|].
    rewrite waits_app, waits_retry_events, count_calls_app,
      count_calls_retry_events.
    destruct k as [|k].
    + assert (tr = []) as -> by (by inversion Hrun).
      replace (Z.of_nat a <? max_retries - 1) with false
        by (symmetry; apply Z.ltb_ge; lia).
      done.
    + replace (Z.of_nat a <? max_retries - 1) with true
        by (symmetry; apply Z.ltb_lt; lia).
      pose proof (loop_run_cons_calls _ _ _ _ _ _ Hrun) as Hc.
      rewrite (IH (S a) (S k)) by (done || right; lia).
      destruct (count_calls tr) as [|c]; [lia|].
      simpl. by rewrite Nat.sub_0_r.
  - done.
  - done.
Qed.

Lemma foldr_add_acc (l : list Z) (b : Z) :
  foldr Z.add b l = foldr Z.add 0 l + b.
Proof. induction l as [|x l IH]; simpl; lia. Qed.

(** 1 + 2 + ... + 2^(m-1) = 2^m - 1 *)
Lemma sum_powers_of_two (m : nat) :
  foldr Z.add 0 ((fun i : nat => 2 ^ Z.of_nat i) <$> seq 0 m)
    = 2 ^ Z.of_nat m - 1.
Proof.
  induction m as [|m IH]; [done|].
  rewrite seq_S, fmap_app, foldr_app, foldr_add_acc, IH. simpl.
  rewrite Nat2Z.inj_succ, Z.pow_succ_r by lia. lia.
Qed.

Lemma range_as_seq (n : Z) :
  range n = Z.of_nat <$> seq 0 (Z.to_nat n) /\
  (Z.to_nat n = 0%nat \/ Z.of_nat (0 + Z.to_nat n) = n).
Proof. split; [done|]. lia. Qed.

(** X1: in every run the waits are 1, 2, 4, ... in this order, one after
    each call of the operation but the last: a run of [c] calls sleeps
    [c - 1] times, the [i]-th time for [2 ^ i] seconds. *)
Theorem backoff_is_exponential {Env : Type} (elapse : Z -> Env -> Env)
    (func : Operation Env) (args : dict) (max_retries : Z) (w : World Env) :
  exists tr : list event,
    trace (execute_with_retry elapse func args max_retries w).2
      = trace w ++ tr /\
    waits tr = backoff_waits (count_calls tr) /\
    length (waits tr) = (count_calls tr - 1)%nat.
Proof.
  destruct (execute_with_retry_run elapse func args max_retries w)
    as (o & tr & Hrun & Htr & _ & _).
  destruct (range_as_seq max_retries) as [Hrange Hn].
  rewrite Hrange in Hrun.
  apply loop_run_waits_from in Hrun; [|done].
  exists tr. split; [done|]. split; [done|].
  by rewrite Hrun, length_fmap, length_seq.
Qed.

Lemma execute_with_retry_total_wait {Env : Type} (elapse : Z -> Env -> Env)
    (func : Operation Env) (args : dict) (max_retries : Z) (w : World Env) :
  1 <= max_retries ->
  exists tr : list event,
    trace (execute_with_retry elapse func args max_retries w).2
      = trace w ++ tr /\
    (count_calls tr <= Z.to_nat max_retries)%nat /\
    total_wait tr = 2 ^ (Z.of_nat (count_calls tr) - 1) - 1 /\
    0 <= total_wait tr <= 2 ^ (max_retries - 1) - 1.
Proof.
  intros Hn.
  destruct (execute_with_retry_run elapse func args max_retries w)
    as (o & tr & Hrun & Htr & _ & _).
  pose proof (loop_run_count_calls _ _ _ _ _ Hrun) as Hle.
  rewrite length_range in Hle.
  destruct (range_positive max_retries Hn) as [xs Hxs].
  assert (1 <= count_calls tr)%nat as Hge.
  { rewrite Hxs in Hrun. by eapply loop_run_cons_calls. }
  destruct (range_as_seq max_retries) as [Hrange Hseq].
  rewrite Hrange in Hrun.
  apply loop_run_waits_from in Hrun; [|done].
  exists tr. split; [done|]. split; [done|].
  unfold total_wait. rewrite Hrun, sum_powers_of_two.
  replace (Z.of_nat (count_calls tr - 1)) with (Z.of_nat (count_calls tr) - 1)
    by lia.
  split; [done|].
  assert (2 ^ (Z.of_nat (count_calls tr) - 1) <= 2 ^ (max_retries - 1))
    by (apply Z.pow_le_mono_r; lia).
  assert (0 < 2 ^ (Z.of_nat (count_calls tr) - 1))
    by (apply Z.pow_pos_nonneg; lia).
  lia.
Qed.

(** X2: with a budget of at least one, the time slept in a run of [c]
    calls is [2 ^ (c - 1) - 1] seconds, hence never more than
    [2 ^ (max_retries - 1) - 1]: at most 3 seconds under the default
    budget. *)
Theorem total_wait_is_bounded {Env : Type} (elapse : Z -> Env -> Env)
    (func : Operation Env) (args : dict) (max_retries : Z) (w : World Env) :
  1 <= max_retries ->
  exists tr : list event,
    trace (execute_with_retry elapse func args max_retries w).2
      = trace w ++ tr /\
    total_wait tr = 2 ^ (Z.of_nat (count_calls tr) - 1) - 1 /\
    0 <= total_wait tr <= 2 ^ (max_retries - 1) - 1.
Proof.
  intros Hn.
  destruct (execute_with_retry_total_wait elapse func args max_retries w Hn)
    as (tr & Htr & _ & Hsum & Hbound).
  by exists tr.
Qed.

Lemma total_wait_is_bounded_witness :
  exists tr : list event,
    trace (execute_with_retry no_clock op_get_order_status timeout_args 3 w0).2
      = trace w0 ++ tr /\
    total_wait tr = 2 ^ (Z.of_nat (count_calls tr) - 1) - 1 /\
    0 <= total_wait tr <= 2 ^ (3 - 1) - 1.
Proof.
  apply (total_wait_is_bounded no_clock op_get_order_status timeout_args 3 w0).
  lia.
Defined.

(** ** What the function does to the operation *)

Section Calls.

Context {Env : Type} (elapse : Z -> Env -> Env).
Context (func : Operation Env) (args : dict) (max_retries : Z).

Lemma Forall_genuine_retry_events d (e e' : Env) attempt :
  func args e = (Returned d, e') ->
  Forall (genuine_call func args) (retry_events args d max_retries attempt).
Proof.
  intros Hf. unfold retry_events.
  destruct (attempt <? max_retries - 1); repeat constructor; eauto.
Qed.

Lemma for_in_genuine_calls xs (w : World Env) :
  exists tr : list event,
    trace (for_in xs (attempt_body elapse func args max_retries) w).2
      = trace w ++ tr /\
    Forall (genuine_call func args) tr.
Proof.
  revert w. induction xs as [|x xs IH]; intros w.
  - exists []. simpl. by rewrite app_nil_r.
  - rewrite for_in_cons.
    destruct (func args (env w)) as [[d|ex] e'] eqn:Hf.
    + destruct (returns_immediately d) eqn:Hd.
      * rewrite (attempt_body_return elapse func args max_retries x w d e')
          by done.
        eexists. split; [done|]. repeat constructor; eauto.
      * assert (is_retryable_failure d = true) as Hr.
        { rewrite returns_immediately_spec in Hd.
          by destruct (is_retryable_failure d). }
        rewrite (attempt_body_retry elapse func args max_retries x w d e')
          by done.
        match goal with |- context [for_in xs _ ?w1] =>
          destruct (IH w1) as (tr & Htr & Hall) end.
        exists (retry_events args d max_retries x ++ tr).
        rewrite Htr. cbn [trace]. split; [by rewrite app_assoc|].
        apply Forall_app. split; [|done].
        by eapply Forall_genuine_retry_events.
    + rewrite (attempt_body_raise elapse func args max_retries x w ex e')
        by done.
      eexists. split; [done|]. repeat constructor; eauto.
Qed.

Lemma execute_with_retry_genuine_calls (w : World Env) :
  exists tr : list event,
    trace (execute_with_retry elapse func args max_retries w).2
      = trace w ++ tr /\
    Forall (genuine_call func args) tr.
Proof.
  destruct (for_in_genuine_calls (range max_retries) w) as (tr & Htr & Hall).
  exists tr. split; [|done].
  rewrite execute_with_retry_unfold.
  by destruct (for_in _ _ w) as [[[r|]|ex] w'].
Qed.

End Calls.

Lemma loop_run_raised args max_retries xs ex tr :
  loop_run args max_retries xs (Raised ex) tr ->
  exists pre : list event,
    tr = pre ++ [EvCall args (Raised ex)] /\
    Forall retryable_return (call_results pre).
Proof.
  remember (Raised ex) as o eqn:Ho.
  induction 1 as [|x xs d o tr Hd Hrun IH|x xs d Hd|x xs e]; try discriminate.
  - destruct (IH Ho) as (pre & -> & Hall).
    exists (retry_events args d max_retries x ++ pre).
    split; [by rewrite app_assoc|].
    rewrite call_results_app, call_results_retry_events. by constructor.
  - injection Ho as ->. by exists [].
Qed.

(** X3: on every attempt the operation is called with the argument dict
    the function was given, unchanged: the attempt number and the earlier
    results never reach it. *)
Theorem same_arguments_on_every_attempt {Env : Type} (elapse : Z -> Env -> Env)
    (func : Operation Env) (args : dict) (max_retries : Z) (w : World Env) :
  exists tr : list event,
    trace (execute_with_retry elapse func args max_retries w).2
      = trace w ++ tr /\
    forall pre a res post, tr = pre ++ EvCall a res :: post -> a = args.
Proof.
  destruct (execute_with_retry_genuine_calls elapse func args max_retries w)
    as (tr & Htr & Hall).
  exists tr. split; [done|].
  intros pre a res post ->.
  apply Forall_app in Hall as [_ Hall].
  apply Forall_cons_1 in Hall as [[Ha _] _]. done.
Qed.

(** X4: what the function returns is never a retryable Failure: it is a
    Success, or a Failure whose ["retryable"] entry is absent or falsy, so
    a caller that looks at that entry never retries on top. *)
Theorem returned_result_is_terminal {Env : Type} (elapse : Z -> Env -> Env)
    (func : Operation Env) (args : dict) (max_retries : Z) (w : World Env)
    (r : dict) :
  (execute_with_retry elapse func args max_retries w).1 = Returned r ->
  is_retryable_failure r = false /\
  (is_success r = true \/
   (is_failure r = true /\ truthy (py_get r "retryable") = false)).
Proof.
  intros Hr.
  destruct (execute_with_retry_run elapse func args max_retries w)
    as (o & tr & Hrun & _ & _ & Hres).
  rewrite Hres in Hr.
  assert (is_retryable_failure r = false) as Hterm.
  { destruct o as [[d|]|ex]; simplify_eq; [|done].
    apply loop_run_returned in Hrun as [Himm _].
    rewrite returns_immediately_spec in Himm.
    by destruct (is_retryable_failure r). }
  split; [done|].
  unfold is_retryable_failure, is_success, is_failure in *.
  destruct (py_in "error" r); [right|left]; done.
Qed.

Lemma returned_result_is_terminal_witness :
  is_retryable_failure (max_retries_result 3) = false /\
  (is_success (max_retries_result 3) = true \/
   (is_failure (max_retries_result 3) = true /\
    truthy (py_get (max_retries_result 3) "retryable") = false)).
Proof.
  apply (returned_result_is_terminal no_clock op_get_order_status
           timeout_args 3 w0).
  vm_compute; reflexivity.
Defined.


Lemma execute_with_retry_stateless {Env : Type}
    (elapse : Z -> Env -> Env) (func : Operation Env) (args : dict)
    (max_retries : Z) (w : World Env) (d : dict) :
  1 <= max_retries ->
  (forall e, exists e', func args e = (Returned d, e')) ->
  exists (w' : World Env) (tr : list event),
    execute_with_retry elapse func args max_retries w =
      (Returned
         (if is_retryable_failure d then max_retries_result max_retries
          else d),
       w') /\
    trace w' = trace w ++ tr /\
    count_calls tr =
      (if is_retryable_failure d then Z.to_nat max_retries else 1%nat) /\
    Forall (fun res => res = Returned d) (call_results tr).
Proof.
  intros Hn Hop.
  destruct (is_retryable_failure d) eqn:Hd.
  - assert (always_retryable func args) as Hal.
    { intros e. destruct (Hop e) as [e' He]. eauto. }
    destruct (execute_with_retry_exhausted elapse func args max_retries w Hal)
      as (w' & tr & Hrun & Htr & Hc & _).
    exists w', tr. repeat split; try done.
    destruct (execute_with_retry_genuine_calls elapse func args max_retries w)
      as (tr' & Htr' & Hgen).
    rewrite Hrun in Htr'. simpl in Htr'. rewrite Htr in Htr'.
    apply app_inv_head in Htr'. subst tr'.
    clear -Hgen Hop. induction Hgen as [|ev tr Hev _ IH]; [done|].
    destruct ev as [a res| |]; try done.
    change (call_results (EvCall a res :: tr)) with (res :: call_results tr).
    constructor; [|done].
    destruct Hev as [_ (e & e' & He)]. destruct (Hop e) as [e'' He'].
    congruence.
  - destruct (Hop (env w)) as [e' He].
    eexists _, [EvCall args (Returned d)]. split.
    { apply execute_with_retry_first; [done..|].
      by rewrite returns_immediately_spec, Hd. }
    repeat split. by repeat constructor.
Qed.


(** X6: retrying cannot help with an operation whose result does not
    depend on the outside state.  Under a budget of at least one, either
    its result is returned after the first call, or (when it is a retryable
    Failure) every attempt of the budget is made and the function gives
    up. *)
Theorem stateless_operation_first_or_never {Env : Type}
    (elapse : Z -> Env -> Env) (func : Operation Env) (args : dict)
    (max_retries : Z) (w : World Env) (d : dict) :
  1 <= max_retries ->
  (forall e, exists e', func args e = (Returned d, e')) ->
  exists (w' : World Env) (tr : list event),
    execute_with_retry elapse func args max_retries w =
      (Returned
         (if is_retryable_failure d then max_retries_result max_retries
          else d),
       w') /\
    trace w' = trace w ++ tr /\
    count_calls tr =
      (if is_retryable_failure d then Z.to_nat max_retries else 1%nat).
Proof.
  intros Hn Hop.
  destruct (execute_with_retry_stateless elapse func args max_retries w d
              Hn Hop) as (w' & tr & Hrun & Htr & Hc & _).
  by exists w', tr.
Qed.

Lemma stateless_operation_first_or_never_witness :
  exists (w' : World unit) (tr : list event),
    execute_with_retry no_clock op_check_inventory
        {[ "product_id" := PyStr "green-tool" ]} 3 w0 =
      (Returned
         (if is_retryable_failure (check_inventory "green-tool" None)
          then max_retries_result 3
          else check_inventory "green-tool" None),
       w') /\
    trace w' = trace w0 ++ tr /\
    count_calls tr =
      (if is_retryable_failure (check_inventory "green-tool" None)
       then Z.to_nat 3 else 1%nat).
Proof.
  apply (stateless_operation_first_or_never no_clock op_check_inventory
           {[ "product_id" := PyStr "green-tool" ]} 3 w0
           (check_inventory "green-tool" None)).
  - lia.
  - intros e. exists e. vm_compute; reflexivity.
Defined.

(** ** A larger budget *)

Section Budgets.

Context {Env : Type} (elapse : Z -> Env -> Env).
Context (func : Operation Env) (args : dict).

(** Two runs over the attempts from [a] on, under the budgets [n] and [m],
    from worlds with the same outside state: when the first returns from
    inside the loop, so does the second, in the same way. *)
Lemma for_in_larger_budget (n m : Z) (r : dict) (k : nat) :
  forall (a k' : nat) (w1 w2 : World Env),
    env w1 = env w2 ->
    Z.of_nat (a + k) = n ->
    Z.of_nat (a + k') = m ->
    (k <= k')%nat ->
    (for_in (Z.of_nat <$> seq a k) (attempt_body elapse func args n) w1).1
      = Returned (Some r) ->
    exists tr1 tr2 : list event,
      (for_in (Z.of_nat <$> seq a k') (attempt_body elapse func args m) w2).1
        = Returned (Some r) /\
      env (for_in (Z.of_nat <$> seq a k') (attempt_body elapse func args m) w2).2
        = env (for_in (Z.of_nat <$> seq a k) (attempt_body elapse func args n) w1).2 /\
      trace (for_in (Z.of_nat <$> seq a k) (attempt_body elapse func args n) w1).2
        = trace w1 ++ tr1 /\
      trace (for_in (Z.of_nat <$> seq a k') (attempt_body elapse func args m) w2).2
        = trace w2 ++ tr2 /\
      call_results tr2 = call_results tr1 /\
      waits tr2 = waits tr1.
Proof.
  induction k as [|k IH]; intros a k' w1 w2 Henv Hn Hm Hk Hres; [done|].
  destruct k' as [|k']; [lia|].
  simpl seq in *. rewrite !fmap_cons in *.
  rewrite for_in_cons in Hres. rewrite !for_in_cons.
  destruct (func args (env w1)) as [[d|ex] e'] eqn:Hf1.
  - assert (func args (env w2) = (Returned d, e')) as Hf2 by by rewrite <- Henv.
    destruct (returns_immediately d) eqn:Hd.
    + rewrite (attempt_body_return elapse func args n _ w1 d e') in Hres |- *
        by done.
      rewrite (attempt_body_return elapse func args m _ w2 d e') by done.
      simpl in Hres. injection Hres as ->.
      by eexists [_], [_].
    + assert (is_retryable_failure d = true) as Hr.
      { rewrite returns_immediately_spec in Hd.
        by destruct (is_retryable_failure d). }
      rewrite (attempt_body_retry elapse func args n _ w1 d e') in Hres |- *
        by done.
      rewrite (attempt_body_retry elapse func args m _ w2 d e') by done.
      destruct k as [|k]; [done|].
      assert ((Z.of_nat a <? n - 1) = true) as Hlt1 by (apply Z.ltb_lt; lia).
      assert ((Z.of_nat a <? m - 1) = true) as Hlt2 by (apply Z.ltb_lt; lia).
      rewrite Hlt1 in Hres |- *. rewrite Hlt2.
      match type of Hres with context [for_in _ _ ?w1'] =>
        match goal with |- context [for_in _ (attempt_body _ _ _ m) ?w2'] =>
          destruct (IH (S a) k' w1' w2') as
            (tr1 & tr2 & Hres2 & Henv2 & Htr1 & Htr2 & Hcalls & Hwaits);
            [done|lia|lia|lia|done|]
        end
      end.
      exists (retry_events args d n (Z.of_nat a) ++ tr1),
             (retry_events args d m (Z.of_nat a) ++ tr2).
      rewrite Hres2, Henv2, Htr1, Htr2. cbn [trace].
      rewrite !app_assoc, !call_results_app, !waits_app,
        !call_results_retry_events, !waits_retry_events, Hlt1, Hlt2,
        Hcalls, Hwaits.
      done.
  - by rewrite (attempt_body_raise elapse func args n _ w1 ex e') in Hres.
Qed.

End Budgets.

(** X7: a run that did not end in the synthesized ["max_retries"] Failure
    is not changed by a larger budget: the function returns the same dict,
    leaves the outside state the same, and has made the same calls with the
    same results and the same waits. *)
Theorem larger_budget_same_outcome {Env : Type} (elapse : Z -> Env -> Env)
    (func : Operation Env) (args : dict) (n m : Z) (w : World Env) (r : dict) :
  n <= m ->
  (execute_with_retry elapse func args n w).1 = Returned r ->
  error_code r <> Some "max_retries" ->
  exists tr_n tr_m : list event,
    (execute_with_retry elapse func args m w).1 = Returned r /\
    env (execute_with_retry elapse func args m w).2
      = env (execute_with_retry elapse func args n w).2 /\
    trace (execute_with_retry elapse func args n w).2 = trace w ++ tr_n /\
    trace (execute_with_retry elapse func args m w).2 = trace w ++ tr_m /\
    call_results tr_m = call_results tr_n /\
    waits tr_m = waits tr_n.
Proof.
  intros Hnm Hres Hcode.
  rewrite execute_with_retry_unfold in Hres.
  assert ((for_in (range n) (attempt_body elapse func args n) w).1
            = Returned (Some r)) as Hin.
  { destruct (for_in _ _ w) as [[[d|]|ex] w'] eqn:Hrun; simplify_eq/=; done. }
  assert (1 <= n) as Hn.
  { destruct (Z_le_gt_dec n 0) as [Hle|]; [|lia].
    by rewrite range_nonpositive in Hin. }
  destruct (for_in_larger_budget elapse func args n m r (Z.to_nat n)
              0%nat (Z.to_nat m) w w)
    as (tr1 & tr2 & Hres2 & Henv & Htr1 & Htr2 & Hcalls & Hwaits);
    [done|lia|lia|lia|done|].
  exists tr1, tr2.
  rewrite !execute_with_retry_unfold.
  change (Z.of_nat <$> seq 0 (Z.to_nat n)) with (range n) in *.
  change (Z.of_nat <$> seq 0 (Z.to_nat m)) with (range m) in *.
  destruct (for_in (range n) _ w) as [[[d1|]|ex1] w1];
    destruct (for_in (range m) _ w) as [[[d2|]|ex2] w2];
    simplify_eq/=; done.
Qed.

Lemma larger_budget_same_outcome_witness :
  exists tr_n tr_m : list event,
    (execute_with_retry (fun _ k => k) flaky_order_status
       {[ "order_id" := PyStr "ORD-12345" ]} 5
       (MkWorld 0%nat (fun _ => false) [])).1
      = Returned (get_order_status "ORD-12345" None) /\
    env (execute_with_retry (fun _ k => k) flaky_order_status
           {[ "order_id" := PyStr "ORD-12345" ]} 5
           (MkWorld 0%nat (fun _ => false) [])).2
      = env (execute_with_retry (fun _ k => k) flaky_order_status
               {[ "order_id" := PyStr "ORD-12345" ]} 3
               (MkWorld 0%nat (fun _ => false) [])).2 /\
    trace (execute_with_retry (fun _ k => k) flaky_order_status
             {[ "order_id" := PyStr "ORD-12345" ]} 3
             (MkWorld 0%nat (fun _ => false) [])).2
      = trace (MkWorld 0%nat (fun _ => false) []) ++ tr_n /\
    trace (execute_with_retry (fun _ k => k) flaky_order_status
             {[ "order_id" := PyStr "ORD-12345" ]} 5
             (MkWorld 0%nat (fun _ => false) [])).2
      = trace (MkWorld 0%nat (fun _ => false) []) ++ tr_m /\
    call_results tr_m = call_results tr_n /\
    waits tr_m = waits tr_n.
Proof.
  apply (larger_budget_same_outcome (fun _ k => k) flaky_order_status
           {[ "order_id" := PyStr "ORD-12345" ]} 3 5
           (MkWorld 0%nat (fun _ => false) [])
           (get_order_status "ORD-12345" None)).
  - lia.
  - vm_compute; reflexivity.
  - intros Hcode. vm_compute in Hcode. discriminate Hcode.
Defined.

(** * The mock back ends *)

(** X8: [get_order_status] returns a retryable Failure exactly when the
    simulated error is "timeout" or "service_unavailable", and then its
    code is the simulated error, whatever the order id; any other simulated
    error is ignored.  Otherwise it returns a Success exactly for the two
    known orders, whose record carries the id asked for, and for every
    other id the Failure "not_found", not retryable, whose message names
    the id. *)
Theorem get_order_status_classification (order_id : string)
    (simulate_error : option string) :
  let r := get_order_status order_id simulate_error in
  let simulated :=
    simulate_error = Some "timeout" \/
    simulate_error = Some "service_unavailable" in
  let known := order_id = "ORD-12345" \/ order_id = "ORD-67890" in
  (is_retryable_failure r = true <-> simulated) /\
  (simulated -> error_code r = simulate_error) /\
  (~ simulated -> r = get_order_status order_id None) /\
  (is_success r = true <-> ~ simulated /\ known) /\
  (is_success r = true -> r !! "order_id" = Some (PyStr order_id)) /\
  (~ simulated -> ~ known ->
   r = {[ "error" := PyStr "not_found";
          "message" := PyStr ("Order " +:+ order_id +:+ " not found");
          "retryable" := PyBool false ]}).
Proof.
  intros r simulated known. subst r simulated known.
  unfold get_order_status.
  destruct (decide (simulate_error = Some "timeout")) as [->|Ht].
  { repeat split; try done; try tauto; intros; tauto. }
  destruct (decide (simulate_error = Some "service_unavailable")) as [->|Hs].
  { repeat split; try done; try tauto; intros; tauto. }
  rewrite !decide_False by done.
  destruct (decide (order_id = "ORD-12345")) as [->|H1].
  { repeat split; try done; try tauto; intros; try tauto.
    all: by vm_compute in H. }
  destruct (decide (order_id = "ORD-67890")) as [->|H2].
  { repeat split; try done; try tauto; intros; try tauto.
    all: by vm_compute in H. }
  rewrite lookup_insert_ne, lookup_singleton_ne by done. simpl.
  repeat split; try done; try tauto; intros; try tauto.
Qed.

(** X9: [check_inventory] returns a retryable Failure exactly when the
    simulated error is "rate_limit", whatever the product id; any other
    simulated error is ignored.  Otherwise it returns a Success exactly
    for the two known products, whose record carries the id asked for and
    an ["in_stock"] flag that agrees with its ["quantity"], and for every
    other id the Failure "not_found", not retryable, whose message names
    the id. *)
Theorem check_inventory_classification (product_id : string)
    (simulate_error : option string) :
  let r := check_inventory product_id simulate_error in
  let simulated := simulate_error = Some "rate_limit" in
  let known := product_id = "blue-widget" \/ product_id = "green-tool" in
  (is_retryable_failure r = true <-> simulated) /\
  (simulated -> error_code r = Some "rate_limit") /\
  (~ simulated -> r = check_inventory product_id None) /\
  (is_success r = true <-> ~ simulated /\ known) /\
  (is_success r = true ->
   r !! "product_id" = Some (PyStr product_id) /\
   exists (b : bool) (q : Z),
     r !! "in_stock" = Some (PyBool b) /\
     r !! "quantity" = Some (PyInt q) /\
     (b = true <-> 0 < q)) /\
  (~ simulated -> ~ known ->
   r = {[ "error" := PyStr "not_found";
          "message" := PyStr ("Product " +:+ product_id +:+ " not found");
          "retryable" := PyBool false ]}).
Proof.
  intros r simulated known. subst r simulated known.
  unfold check_inventory.
  destruct (decide (simulate_error = Some "rate_limit")) as [->|Hr].
  { repeat split; try done; try tauto; intros; tauto. }
  rewrite !decide_False by done.
  destruct (decide (product_id = "blue-widget")) as [->|H1].
  { repeat split; try done; try tauto; intros; try tauto.
    by exists true, 45. }
  destruct (decide (product_id = "green-tool")) as [->|H2].
  { repeat split; try done; try tauto; intros; try tauto.
    by exists false, 0. }
  rewrite lookup_insert_ne, lookup_singleton_ne by done. simpl.
  repeat split; try done; try tauto; intros; try tauto.
Qed.

Lemma get_order_status_result order_id simulate_error :
  backend_result (get_order_status order_id simulate_error).
Proof.
  unfold get_order_status, backend_result.
  destruct (decide (simulate_error = Some "timeout")); [by left|].
  destruct (decide (simulate_error = Some "service_unavailable")); [by left|].
  destruct (decide (order_id = "ORD-12345")) as [->|H1]; [by right; left|].
  destruct (decide (order_id = "ORD-67890")) as [->|H2]; [by right; left|].
  rewrite lookup_insert_ne, lookup_singleton_ne by done. simpl.
  right; right. eauto.
Qed.

Lemma check_inventory_result product_id simulate_error :
  backend_result (check_inventory product_id simulate_error).
Proof.
  unfold check_inventory, backend_result.
  destruct (decide (simulate_error = Some "rate_limit")); [by left|].
  destruct (decide (product_id = "blue-widget")) as [->|H1]; [by right; left|].
  destruct (decide (product_id = "green-tool")) as [->|H2]; [by right; left|].
  rewrite lookup_insert_ne, lookup_singleton_ne by done. simpl.
  right; right. eauto.
Qed.

Lemma backend_operation_stateless {Env : Type} id_param f args id err :
  bind_kwargs id_param args = Some (id, err) ->
  forall e : Env, exists e',
    backend_operation id_param f args e = (Returned (f id err), e').
Proof. intros Hb e. exists e. unfold backend_operation. by rewrite Hb. Qed.

(** The result of a back end called through the retry loop. *)
Lemma backend_through_retry {Env : Type} (elapse : Z -> Env -> Env)
    (id_param : string) (f : string -> option string -> dict)
    (args : dict) (id : string) (err : option string)
    (max_retries : Z) (w : World Env) :
  (forall id err, backend_result (f id err)) ->
  bind_kwargs id_param args = Some (id, err) ->
  1 <= max_retries ->
  exists (r : dict) (w' : World Env),
    execute_with_retry elapse (backend_operation id_param f) args
        max_retries w = (Returned r, w') /\
    ((is_success r = true /\ r = f id err) \/
     exists code msg : string,
       r = {[ "error" := PyStr code; "message" := PyStr msg;
              "retryable" := PyBool false ]} /\
       (code = "not_found" /\ r = f id err \/
        code = "max_retries" /\ is_retryable_failure (f id err) = true)).
Proof.
  intros Hf Hb Hn.
  destruct (execute_with_retry_stateless elapse
              (backend_operation id_param f) args max_retries w (f id err) Hn
              (backend_operation_stateless id_param f args id err Hb))
    as (w' & tr & Hrun & _).
  eexists _, w'. split; [exact Hrun|].
  destruct (Hf id err) as [Hr|[Hs|[msg Hm]]].
  - rewrite Hr. right. eexists "max_retries", _. split; [done|]. by right.
  - assert (is_retryable_failure (f id err) = false) as ->.
    { unfold is_retryable_failure, is_success in *.
      by destruct (py_in "error" (f id err)). }
    by left.
  - rewrite Hm. right. exists "not_found", msg. split; [done|]. by left.
Qed.

(** X10: whichever of the two back ends is called through the retry loop
    with arguments that fit its signature, under a budget of at least one:
    the function returns, and what it returns is the back end's Success or
    a Failure that is not retryable, has a string ["message"], and carries
    the code "not_found" or "max_retries".  The transient codes never
    leave the retry loop, so the fallback texts for them and the generic
    one are never what this result maps to. *)
Theorem backend_failures_leave_as_terminal_codes {Env : Type}
    (elapse : Z -> Env -> Env) (id_param : string)
    (f : string -> option string -> dict) (args : dict) (id : string)
    (err : option string) (max_retries : Z) (w : World Env) :
  (id_param = "order_id" /\ f = get_order_status) \/
  (id_param = "product_id" /\ f = check_inventory) ->
  bind_kwargs id_param args = Some (id, err) ->
  1 <= max_retries ->
  exists (r : dict) (w' : World Env),
    execute_with_retry elapse (backend_operation id_param f) args
        max_retries w = (Returned r, w') /\
    ((is_success r = true /\ r = f id err) \/
     exists code msg : string,
       r = {[ "error" := PyStr code; "message" := PyStr msg;
              "retryable" := PyBool false ]} /\
       (code = "not_found" \/ code = "max_retries") /\
       get_fallback_response code =
         (if decide (code = "not_found")
          then "I couldn't find that. Please double-check the ID and try again."
          else "I'm having trouble accessing our systems. Let me connect you with support@globomantics.com")).
Proof.
  intros Hback Hb Hn.
  assert (forall id err, backend_result (f id err)) as Hf.
  { destruct Hback as [[_ ->]|[_ ->]];
      [apply get_order_status_result|apply check_inventory_result]. }
  destruct (backend_through_retry elapse id_param f args id err max_retries w
              Hf Hb Hn) as (r & w' & Hrun & Hr).
  exists r, w'. split; [done|].
  destruct Hr as [?|(code & msg & Hr & [[-> _]|[-> _]])]; [by left|..];
    right; eexists _, msg; by repeat split; eauto.
Qed.

Lemma backend_failures_leave_as_terminal_codes_witness :
  exists (r : dict) (w' : World unit),
    execute_with_retry no_clock (backend_operation "product_id" check_inventory)
        {[ "product_id" := PyStr "red-gadget" ]} 3 w0 = (Returned r, w') /\
    ((is_success r = true /\ r = check_inventory "red-gadget" None) \/
     exists code msg : string,
       r = {[ "error" := PyStr code; "message" := PyStr msg;
              "retryable" := PyBool false ]} /\
       (code = "not_found" \/ code = "max_retries") /\
       get_fallback_response code =
         (if decide (code = "not_found")
          then "I couldn't find that. Please double-check the ID and try again."
          else "I'm having trouble accessing our systems. Let me connect you with support@globomantics.com")).
Proof.
  apply (backend_failures_leave_as_terminal_codes no_clock "product_id"
           check_inventory {[ "product_id" := PyStr "red-gadget" ]}
           "red-gadget" None 3 w0).
  - by right.
  - vm_compute; reflexivity.
  - lia.
Defined.

(** * The agent *)

Lemma chat_requests_app (l1 l2 : list agent_event) :
  chat_requests (l1 ++ l2) = chat_requests l1 ++ chat_requests l2.
Proof. apply omap_app. Qed.

Lemma retry_trace_app (l1 l2 : list agent_event) :
  retry_trace (l1 ++ l2) = retry_trace l1 ++ retry_trace l2.
Proof. apply omap_app. Qed.

Lemma chat_requests_retry (tr : list event) :
  chat_requests (AgRetry <$> tr) = [].
Proof. by induction tr. Qed.

Lemma retry_trace_retry (tr : list event) :
  retry_trace (AgRetry <$> tr) = tr.
Proof. induction tr as [|ev tr IH]; [done|]. simpl. by f_equal. Qed.

Section AgentRuns.

Context {Env : Type} (elapse : Z -> Env -> Env).
Context (chat_create : chat_request -> Env -> outcome response_message * Env).
Context (json_loads : string -> outcome dict).

(** The agent up to the call of the retry loop, for a reply that asks for
    a registered function with arguments that load. *)
Lemma run_agent_with_fallback_tool_call user_message simulate_error
    (s : Session Env) reply e1 tc rest loaded func :
  chat_create
    (ChatRequest "gpt-5-mini"
       [ChatSystem system_prompt; ChatUser user_message] true) (s_env s)
    = (Returned reply, e1) ->
  rm_tool_calls reply = tc :: rest ->
  json_loads (tc_arguments tc) = Returned loaded ->
  available_functions !! tc_name tc = Some func ->
  let function_args :=
    match simulation simulate_error with
    | Some sim => <[ "simulate_error" := PyStr sim ]> loaded
    | None => loaded
    end in
  let run :=
    execute_with_retry elapse func function_args 3
      (MkWorld e1 (s_cancel s) []) in
  let log1 :=
    s_log s ++
    [AgPrint (PrUser user_message)] ++
    match simulation simulate_error with
    | Some sim => [AgPrint (PrSimulating sim)]
    | None => []
    end ++
    [AgChat
       (ChatRequest "gpt-5-mini"
          [ChatSystem system_prompt; ChatUser user_message] true)
       (Returned reply);
     AgPrint
       (PrCalling (tc_name tc)
          (py_or (py_get function_args "order_id")
                 (py_get function_args "product_id")))] ++
    (AgRetry <$> trace run.2) in
  run_agent_with_fallback elapse chat_create json_loads user_message
      simulate_error s =
    match run.1 with
    | Raised ex => (Raised ex, MkSession (env run.2) (s_cancel s) log1)
    | Returned result =>
        if py_in "error" result then
          match py_getitem result "message" with
          | Raised ex => (Raised ex, MkSession (env run.2) (s_cancel s) log1)
          | Returned msg =>
              match fallback_response_of (py_get result "error") with
              | Raised ex =>
                  (Raised ex,
                   MkSession (env run.2) (s_cancel s)
                     (log1 ++
                        [AgPrint (PrError (py_get result "error") msg)]))
              | Returned text =>
                  (Returned tt,
                   MkSession (env run.2) (s_cancel s)
                     (log1 ++
                        [AgPrint (PrError (py_get result "error") msg);
                         AgPrint (PrAgent (Some text))]))
              end
          end
        else
          let req2 :=
            ChatRequest "gpt-5-mini"
              [ChatSystem system_prompt; ChatUser user_message;
               ChatAssistant reply; ChatTool (tc_id tc) result] false in
          match chat_create req2 (env run.2) with
          | (Raised ex, e2) =>
              (Raised ex,
               MkSession e2 (s_cancel s)
                 (log1 ++
                    [AgPrint (PrSuccess result); AgChat req2 (Raised ex)]))
          | (Returned final, e2) =>
              (Returned tt,
               MkSession e2 (s_cancel s)
                 (log1 ++
                    [AgPrint (PrSuccess result);
                     AgChat req2 (Returned final);
                     AgPrint (PrAgent (rm_content final))]))
          end
    end.
Proof.
  intros Hchat Htc Hload Hfunc function_args run log1.
  subst log1 run function_args.
  unfold run_agent_with_fallback, mbind, Agent_bind, agent_bind, mret,
    Agent_ret, agent_ret, agent_print_line, agent_chat, agent_lift,
    agent_retry.
  destruct (simulation simulate_error) as [sim|]; simpl;
    rewrite Hchat; simpl; rewrite Htc, Hload, Hfunc; simpl.
  all: match goal with |- context [execute_with_retry ?a ?b ?c ?d ?e] =>
         destruct (execute_with_retry a b c d e) as [[result|ex] w'] end;
       simpl; rewrite <- ?app_assoc; simpl; [|done].
  all: destruct (py_in "error" result) eqn:Herr; simpl.
  all: try (unfold py_in in Herr; unfold py_getitem, py_get;
            destruct (result !! "error") as [code|]; [|done]; simpl;
            destruct (result !! "message") as [msg|]; [|done]; simpl;
            destruct (fallback_response_of code) as [text|ex]; simpl;
            by rewrite <- ?app_assoc).
  all: match goal with |- context [chat_create ?r ?e] =>
         destruct (chat_create r e) as [[final|ex] e2] end;
       simpl; by rewrite <- ?app_assoc.
Qed.

End AgentRuns.

Lemma available_functions_registered {Env : Type} (name id_param : string)
    (f : string -> option string -> dict) :
  (name = "get_order_status" /\ id_param = "order_id" /\ f = get_order_status) \/
  (name = "check_inventory" /\ id_param = "product_id" /\ f = check_inventory) ->
  (available_functions (Env := Env)) !! name
    = Some (backend_operation id_param f) /\
  (forall id err, backend_result (f id err)).
Proof.
  intros [(-> & -> & ->)|(-> & -> & ->)]; (split; [reflexivity|]).
  - apply get_order_status_result.
  - apply check_inventory_result.
Qed.

Lemma failure_dict_reads (code msg : string) :
  let d : dict :=
    {[ "error" := PyStr code; "message" := PyStr msg;
       "retryable" := PyBool false ]} in
  py_in "error" d = true /\
  py_get d "error" = PyStr code /\
  py_getitem d "message" = Returned (PyStr msg) /\
  is_retryable_failure d = false.
Proof. repeat split; reflexivity. Qed.

Section AgentBackends.

Context {Env : Type} (elapse : Z -> Env -> Env).
Context (chat_create : chat_request -> Env -> outcome response_message * Env).
Context (json_loads : string -> outcome dict).

(** X11: when the model asks for one of the two back ends with arguments
    that fit its signature and the back end does not succeed, the agent
    returns normally after a single request to the model: it prints the
    error and then the fallback text of the code "not_found" (after one
    call of the back end) or, for a retryable Failure, of "max_retries"
    (after three calls and the waits 1 and 2).  It never prints the generic
    text or the text of a transient code, and never asks the model
    again. *)
Theorem agent_reports_backend_failure (user_message : string)
    (simulate_error : option string) (s : Session Env)
    (reply : response_message) (e1 : Env) (tc : tool_call)
    (rest : list tool_call) (loaded : dict) (id_param : string)
    (f : string -> option string -> dict) (id : string) (err : option string) :
  let req1 :=
    ChatRequest "gpt-5-mini"
      [ChatSystem system_prompt; ChatUser user_message] true in
  let function_args :=
    match simulation simulate_error with
    | Some sim => <[ "simulate_error" := PyStr sim ]> loaded
    | None => loaded
    end in
  chat_create req1 (s_env s) = (Returned reply, e1) ->
  rm_tool_calls reply = tc :: rest ->
  json_loads (tc_arguments tc) = Returned loaded ->
  (tc_name tc = "get_order_status" /\ id_param = "order_id" /\
   f = get_order_status) \/
  (tc_name tc = "check_inventory" /\ id_param = "product_id" /\
   f = check_inventory) ->
  bind_kwargs id_param function_args = Some (id, err) ->
  is_success (f id err) = false ->
  exists (code msg : string) (e' : Env) (log : list agent_event),
    run_agent_with_fallback elapse chat_create json_loads user_message
        simulate_error s =
      (Returned tt,
       MkSession e' (s_cancel s)
         (s_log s ++ log ++
            [AgPrint (PrError (PyStr code) (PyStr msg));
             AgPrint (PrAgent (Some (get_fallback_response code)))])) /\
    code = (if is_retryable_failure (f id err)
            then "max_retries" else "not_found") /\
    get_fallback_response code =
      (if is_retryable_failure (f id err)
       then "I'm having trouble accessing our systems. Let me connect you with support@globomantics.com"
       else "I couldn't find that. Please double-check the ID and try again.") /\
    chat_requests log = [req1] /\
    count_calls (retry_trace log) =
      (if is_retryable_failure (f id err) then 3%nat else 1%nat) /\
    waits (retry_trace log) =
      (if is_retryable_failure (f id err) then [1; 2] else []).
Proof.
  intros req1 function_args Hchat Htc Hload Hreg Hbind Hfail.
  destruct (available_functions_registered (Env := Env) _ _ _ Hreg)
    as [Hfunc Hshape].
  pose proof (run_agent_with_fallback_tool_call elapse chat_create json_loads
                user_message simulate_error s reply e1 tc rest loaded _
                Hchat Htc Hload Hfunc) as Hrun.
  cbv zeta in Hrun. fold function_args in Hrun. rewrite Hrun. clear Hrun.
  assert (backend_operation id_param f function_args =
            fun e : Env => (Returned (f id err), e)) as Hop.
  { unfold backend_operation. by rewrite Hbind. }
  destruct (Hshape id err) as [Hr|[Hs|[msg Hm]]]; [| congruence |].
  - rewrite (execute_with_retry_three_steps elapse _ function_args
               (MkWorld e1 (s_cancel s) [])
               (f id err) (f id err) (f id err) e1 (elapse 1 e1)
               (elapse 2 (elapse 1 e1)))
      by (done || by rewrite Hop).
    rewrite Hr. cbn [fst snd env trace].
    destruct (failure_dict_reads "max_retries" "Failed after 3 attempts")
      as (Hin & Hcode & Hmsg & _).
    change (max_retries_result 3) with
      ({[ "error" := PyStr "max_retries";
          "message" := PyStr "Failed after 3 attempts";
          "retryable" := PyBool false ]} : dict).
    cbv zeta in Hin, Hcode, Hmsg.
    rewrite Hin, Hmsg, Hcode. cbn [fallback_response_of].
    exists "max_retries", "Failed after 3 attempts".
    eexists _, _. split.
    { rewrite <- (app_assoc (s_log s)). reflexivity. }
    rewrite !chat_requests_app, !retry_trace_app, chat_requests_retry,
      retry_trace_retry.
    destruct (simulation simulate_error); repeat split; reflexivity.
  - destruct (failure_dict_reads "not_found" msg) as (Hin & Hcode & Hmsg & Hnr).
    cbv zeta in Hin, Hcode, Hmsg, Hnr.
    rewrite (execute_with_retry_first elapse _ function_args 3
               (MkWorld e1 (s_cancel s) []) (f id err) e1);
      [|lia|by rewrite Hop|by rewrite returns_immediately_spec, Hm, Hnr].
    rewrite Hm, Hnr. cbn [fst snd env trace].
    rewrite Hin, Hmsg, Hcode. cbn [fallback_response_of].
    exists "not_found", msg.
    eexists _, _. split.
    { rewrite <- (app_assoc (s_log s)). reflexivity. }
    rewrite !chat_requests_app, !retry_trace_app, chat_requests_retry,
      retry_trace_retry.
    destruct (simulation simulate_error); repeat split; reflexivity.
Qed.

End AgentBackends.

Lemma simulation_cases (simulate_error : option string) :
  (simulate_error = None \/ simulate_error = Some "" ->
   simulation simulate_error = None) /\
  (forall sim, simulate_error = Some sim -> sim <> "" ->
   simulation simulate_error = Some sim).
Proof.
  split.
  - by intros [->| ->].
  - intros sim -> Hne. unfold simulation.
    destruct (String.eqb_spec sim ""); [done|reflexivity].
Qed.

Section AgentGeneral.

Context {Env : Type} (elapse : Z -> Env -> Env).
Context (chat_create : chat_request -> Env -> outcome response_message * Env).
Context (json_loads : string -> outcome dict).

(** The log of a run in which the retry loop is entered: the events up to
    and including those of the loop, then prints and at most one more
    request. *)
Lemma run_agent_with_fallback_tool_call_log user_message simulate_error
    (s : Session Env) reply e1 tc rest loaded func :
  chat_create
    (ChatRequest "gpt-5-mini"
       [ChatSystem system_prompt; ChatUser user_message] true) (s_env s)
    = (Returned reply, e1) ->
  rm_tool_calls reply = tc :: rest ->
  json_loads (tc_arguments tc) = Returned loaded ->
  available_functions !! tc_name tc = Some func ->
  let function_args :=
    match simulation simulate_error with
    | Some sim => <[ "simulate_error" := PyStr sim ]> loaded
    | None => loaded
    end in
  exists log : list agent_event,
    s_log (run_agent_with_fallback elapse chat_create json_loads user_message
             simulate_error s).2 = s_log s ++ log /\
    retry_trace log =
      trace (execute_with_retry elapse func function_args 3
               (MkWorld e1 (s_cancel s) [])).2 /\
    (length (chat_requests log) <= 2)%nat.
Proof.
  intros Hchat Htc Hload Hfunc function_args.
  pose proof (run_agent_with_fallback_tool_call elapse chat_create json_loads
                user_message simulate_error s reply e1 tc rest loaded func
                Hchat Htc Hload Hfunc) as Hrun.
  cbv zeta in Hrun. fold function_args in Hrun. rewrite Hrun. clear Hrun.
  set (run := execute_with_retry elapse func function_args 3
                (MkWorld e1 (s_cancel s) [])).
  assert (forall suffix : list agent_event,
             retry_trace suffix = [] ->
             (length (chat_requests suffix) <= 1)%nat ->
             exists log : list agent_event,
               (s_log s ++
                [AgPrint (PrUser user_message)] ++
                match simulation simulate_error with
                | Some sim => [AgPrint (PrSimulating sim)]
                | None => []
                end ++
                [AgChat
                   (ChatRequest "gpt-5-mini"
                      [ChatSystem system_prompt; ChatUser user_message] true)
                   (Returned reply);
                 AgPrint
                   (PrCalling (tc_name tc)
                      (py_or (py_get function_args "order_id")
                             (py_get function_args "product_id")))] ++
                (AgRetry <$> trace run.2)) ++ suffix = s_log s ++ log /\
               retry_trace log = trace run.2 /\
               (length (chat_requests log) <= 2)%nat) as Hlog.
  { intros suffix Hretry Hchats. eexists. split.
    { rewrite <- (app_assoc (s_log s)). reflexivity. }
    rewrite !chat_requests_app, !retry_trace_app, chat_requests_retry,
      retry_trace_retry, Hretry, !length_app.
    destruct (simulation simulate_error); cbn; rewrite ?app_nil_r;
      (split; [reflexivity|lia]). }
  destruct run.1 as [result|ex]; cbn [snd s_log].
  2: { rewrite <- (app_nil_r (_ ++ _ ++ _ ++ _ ++ _)). (apply Hlog; [reflexivity|cbn; lia]). }
  destruct (py_in "error" result).
  - destruct (py_getitem result "message") as [msg|ex]; cbn [snd s_log].
    2: { rewrite <- (app_nil_r (_ ++ _ ++ _ ++ _ ++ _)). (apply Hlog; [reflexivity|cbn; lia]). }
    destruct (fallback_response_of (py_get result "error")) as [text|ex];
      cbn [snd s_log]; (apply Hlog; [reflexivity|cbn; lia]).
  - cbv zeta.
    match goal with |- context [chat_create ?r ?e] =>
      destruct (chat_create r e) as [[final|ex] e2] end;
      cbn [snd s_log]; (apply Hlog; [reflexivity|cbn; lia]).
Qed.

(** X14: whatever the model replies and however the back end behaves, one
    run of the agent sends at most two requests to the model, calls a back
    end at most three times and sleeps at most three seconds in all. *)
Theorem agent_run_is_bounded (user_message : string)
    (simulate_error : option string) (s : Session Env) :
  exists log : list agent_event,
    s_log (run_agent_with_fallback elapse chat_create json_loads user_message
             simulate_error s).2 = s_log s ++ log /\
    (length (chat_requests log) <= 2)%nat /\
    (count_calls (retry_trace log) <= 3)%nat /\
    0 <= total_wait (retry_trace log) <= 3.
Proof.
  destruct (chat_create
              (ChatRequest "gpt-5-mini"
                 [ChatSystem system_prompt; ChatUser user_message] true)
              (s_env s)) as [[reply|ex] e1] eqn:Hchat.
  2: { unfold run_agent_with_fallback, mbind, Agent_bind, agent_bind, mret,
         Agent_ret, agent_ret, agent_print_line, agent_chat, agent_lift.
       destruct (simulation simulate_error); cbn; rewrite Hchat; cbn;
         eexists; (split; [rewrite <- ?app_assoc; reflexivity|]);
         cbn; repeat split; lia. }
  destruct (rm_tool_calls reply) as [|tc rest] eqn:Htc.
  { unfold run_agent_with_fallback, mbind, Agent_bind, agent_bind, mret,
      Agent_ret, agent_ret, agent_print_line, agent_chat, agent_lift.
    destruct (simulation simulate_error); cbn; rewrite Hchat; cbn;
      rewrite Htc; cbn;
      eexists; (split; [rewrite <- ?app_assoc; reflexivity|]);
      cbn; repeat split; lia. }
  destruct (json_loads (tc_arguments tc)) as [loaded|ex] eqn:Hload.
  2: { unfold run_agent_with_fallback, mbind, Agent_bind, agent_bind, mret,
         Agent_ret, agent_ret, agent_print_line, agent_chat, agent_lift.
       destruct (simulation simulate_error); cbn; rewrite Hchat; cbn;
         rewrite Htc, Hload; cbn;
         eexists; (split; [rewrite <- ?app_assoc; reflexivity|]);
         cbn; repeat split; lia. }
  destruct (available_functions (Env := Env) !! tc_name tc) as [func|]
    eqn:Hfunc.
  2: { unfold run_agent_with_fallback, mbind, Agent_bind, agent_bind, mret,
         Agent_ret, agent_ret, agent_print_line, agent_chat, agent_lift.
       destruct (simulation simulate_error); cbn; rewrite Hchat; cbn;
         rewrite Htc, Hload, Hfunc; cbn;
         eexists; (split; [rewrite <- ?app_assoc; reflexivity|]);
         cbn; repeat split; lia. }
  destruct (run_agent_with_fallback_tool_call_log user_message simulate_error
              s reply e1 tc rest loaded func Hchat Htc Hload Hfunc)
    as (log & Hlog & Hretry & Hchats).
  exists log. split; [done|]. split; [done|].
  rewrite Hretry.
  match goal with |- context [execute_with_retry ?el ?fn ?ar 3 ?w] =>
    destruct (execute_with_retry_total_wait el fn ar 3 w)
      as (tr & Htr & Hcount & _ & Hwait); [lia|]
  end.
  rewrite Htr. cbn [trace app].
  change (Z.to_nat 3) with 3%nat in Hcount.
  change (2 ^ (3 - 1) - 1) with 3 in Hwait.
  done.
Qed.

(** X15: every call of a back end in a run of the agent gets the arguments
    of the model's tool call, with the simulated error of the run put under
    the key ["simulate_error"], replacing what the model may have given
    there.  Nothing is put there when the simulated error is [None] or the
    empty string. *)
Theorem agent_injects_simulated_error (user_message : string)
    (simulate_error : option string) (s : Session Env)
    (reply : response_message) (e1 : Env) (tc : tool_call)
    (rest : list tool_call) (loaded : dict) :
  chat_create
    (ChatRequest "gpt-5-mini"
       [ChatSystem system_prompt; ChatUser user_message] true) (s_env s)
    = (Returned reply, e1) ->
  rm_tool_calls reply = tc :: rest ->
  json_loads (tc_arguments tc) = Returned loaded ->
  exists (log : list agent_event) (function_args : dict),
    s_log (run_agent_with_fallback elapse chat_create json_loads user_message
             simulate_error s).2 = s_log s ++ log /\
    (forall pre a res post,
        retry_trace log = pre ++ EvCall a res :: post -> a = function_args) /\
    (simulate_error = None \/ simulate_error = Some "" ->
     function_args = loaded) /\
    (forall sim, simulate_error = Some sim -> sim <> "" ->
     function_args = <[ "simulate_error" := PyStr sim ]> loaded).
Proof.
  intros Hchat Htc Hload.
  destruct (simulation_cases simulate_error) as [Hnone Hsome].
  exists (drop (length (s_log s))
            (s_log (run_agent_with_fallback elapse chat_create json_loads
                      user_message simulate_error s).2)).
  exists (match simulation simulate_error with
          | Some sim => <[ "simulate_error" := PyStr sim ]> loaded
          | None => loaded
          end).
  assert (exists log : list agent_event,
             s_log (run_agent_with_fallback elapse chat_create json_loads
                      user_message simulate_error s).2 = s_log s ++ log /\
             forall pre a res post,
               retry_trace log = pre ++ EvCall a res :: post ->
               a = match simulation simulate_error with
                   | Some sim => <[ "simulate_error" := PyStr sim ]> loaded
                   | None => loaded
                   end) as (log & Hlog & Hargs).
  { destruct (available_functions (Env := Env) !! tc_name tc) as [func|]
      eqn:Hfunc.
    - destruct (run_agent_with_fallback_tool_call_log user_message
                  simulate_error s reply e1 tc rest loaded func
                  Hchat Htc Hload Hfunc) as (log & Hlog & Hretry & _).
      exists log. split; [done|].
      intros pre a res post Heq. rewrite Hretry in Heq.
      match type of Heq with context [execute_with_retry ?el ?fn ?ar 3 ?w] =>
        destruct (execute_with_retry_genuine_calls el fn ar 3 w)
          as (tr & Htr & Hgen)
      end.
      rewrite Htr in Heq. cbn [trace app] in Heq. subst tr.
      apply Forall_app in Hgen as [_ Hgen].
      by apply Forall_cons_1 in Hgen as [[Ha _] _].
    - unfold run_agent_with_fallback, mbind, Agent_bind, agent_bind, mret,
        Agent_ret, agent_ret, agent_print_line, agent_chat, agent_lift.
      destruct (simulation simulate_error); cbn; rewrite Hchat; cbn;
        rewrite Htc, Hload, Hfunc; cbn;
        eexists; (split; [rewrite <- ?app_assoc; reflexivity|]);
        intros [|? [|? [|? [|? ?]]]] ? ? ? Heq; discriminate Heq. }
  rewrite Hlog, drop_app_length.
  split; [done|]. split; [done|]. split.
  - intros Hcase. by rewrite (Hnone Hcase).
  - intros sim Hs Hne. by rewrite (Hsome sim Hs Hne).
Qed.

(** X13: when the model names a function that is not registered, the agent
    raises [KeyError] with that name right after the "Calling" line: no
    back end is called and the model is not asked again. *)
Theorem agent_unknown_function_raises (user_message : string)
    (simulate_error : option string) (s : Session Env)
    (reply : response_message) (e1 : Env) (tc : tool_call)
    (rest : list tool_call) (loaded : dict) :
  let req1 :=
    ChatRequest "gpt-5-mini"
      [ChatSystem system_prompt; ChatUser user_message] true in
  chat_create req1 (s_env s) = (Returned reply, e1) ->
  rm_tool_calls reply = tc :: rest ->
  json_loads (tc_arguments tc) = Returned loaded ->
  tc_name tc <> "get_order_status" ->
  tc_name tc <> "check_inventory" ->
  exists (log : list agent_event) (arg_id : pyval),
    run_agent_with_fallback elapse chat_create json_loads user_message
        simulate_error s =
      (Raised (PyExn "KeyError" (tc_name tc)),
       MkSession e1 (s_cancel s)
         (s_log s ++ log ++ [AgPrint (PrCalling (tc_name tc) arg_id)])) /\
    chat_requests log = [req1] /\
    retry_trace log = [].
Proof.
  intros req1 Hchat Htc Hload Hne1 Hne2. subst req1.
  assert (available_functions (Env := Env) !! tc_name tc = None) as Hfunc.
  { unfold available_functions.
    by rewrite lookup_insert_ne, lookup_singleton_ne. }
  unfold run_agent_with_fallback, mbind, Agent_bind, agent_bind, mret,
    Agent_ret, agent_ret, agent_print_line, agent_chat, agent_lift.
  destruct (simulation simulate_error); cbn; rewrite Hchat; cbn;
    rewrite Htc, Hload, Hfunc; cbn.
  - exists [AgPrint (PrUser user_message); AgPrint (PrSimulating s0);
            AgChat
              (ChatRequest "gpt-5-mini"
               [ChatSystem system_prompt; ChatUser user_message] true) (Returned reply)].
    eexists. split; [|done]. rewrite <- !app_assoc. reflexivity.
  - exists [AgPrint (PrUser user_message);
            AgChat
              (ChatRequest "gpt-5-mini"
               [ChatSystem system_prompt; ChatUser user_message] true) (Returned reply)].
    eexists. split; [|done]. rewrite <- !app_assoc. reflexivity.
Qed.

(** X12: when the model asks for one of the two back ends with arguments
    that fit its signature and the back end succeeds, the back end is
    called once, without any wait, and the agent asks the model a second
    time, without the tool schemas, with the first reply and the result of
    the back end appended to the two first messages; it returns normally
    exactly when that second request does. *)
Theorem agent_answers_from_backend_success (user_message : string)
    (simulate_error : option string) (s : Session Env)
    (reply : response_message) (e1 e2 : Env) (tc : tool_call)
    (rest : list tool_call) (loaded : dict) (id_param : string)
    (f : string -> option string -> dict) (id : string) (err : option string)
    (res2 : outcome response_message) :
  let req1 :=
    ChatRequest "gpt-5-mini"
      [ChatSystem system_prompt; ChatUser user_message] true in
  let function_args :=
    match simulation simulate_error with
    | Some sim => <[ "simulate_error" := PyStr sim ]> loaded
    | None => loaded
    end in
  let req2 :=
    ChatRequest "gpt-5-mini"
      [ChatSystem system_prompt; ChatUser user_message;
       ChatAssistant reply; ChatTool (tc_id tc) (f id err)] false in
  chat_create req1 (s_env s) = (Returned reply, e1) ->
  rm_tool_calls reply = tc :: rest ->
  json_loads (tc_arguments tc) = Returned loaded ->
  (tc_name tc = "get_order_status" /\ id_param = "order_id" /\
   f = get_order_status) \/
  (tc_name tc = "check_inventory" /\ id_param = "product_id" /\
   f = check_inventory) ->
  bind_kwargs id_param function_args = Some (id, err) ->
  is_success (f id err) = true ->
  chat_create req2 e1 = (res2, e2) ->
  exists log : list agent_event,
    run_agent_with_fallback elapse chat_create json_loads user_message
        simulate_error s =
      (match res2 with
       | Returned _ => Returned tt
       | Raised ex => Raised ex
       end,
       MkSession e2 (s_cancel s)
         (s_log s ++ log ++
            [AgPrint (PrSuccess (f id err)); AgChat req2 res2] ++
            match res2 with
            | Returned final => [AgPrint (PrAgent (rm_content final))]
            | Raised _ => []
            end)) /\
    chat_requests log = [req1] /\
    retry_trace log = [EvCall function_args (Returned (f id err))].
Proof.
  intros req1 function_args req2 Hchat Htc Hload Hreg Hbind Hok Hchat2.
  destruct (available_functions_registered (Env := Env) _ _ _ Hreg)
    as [Hfunc _].
  pose proof (run_agent_with_fallback_tool_call elapse chat_create json_loads
                user_message simulate_error s reply e1 tc rest loaded _
                Hchat Htc Hload Hfunc) as Hrun.
  cbv zeta in Hrun. fold function_args in Hrun. rewrite Hrun. clear Hrun.
  assert (backend_operation id_param f function_args =
            fun e : Env => (Returned (f id err), e)) as Hop.
  { unfold backend_operation. by rewrite Hbind. }
  assert (py_in "error" (f id err) = false) as Hin.
  { unfold is_success in Hok. by destruct (py_in "error" (f id err)). }
  rewrite (execute_with_retry_first elapse _ function_args 3
             (MkWorld e1 (s_cancel s) []) (f id err) e1);
    [|lia|by rewrite Hop|by unfold returns_immediately; rewrite Hin].
  cbn [fst snd env trace]. rewrite Hin. fold req2. rewrite Hchat2.
  eexists.
  destruct res2 as [final|ex];
    (split; [rewrite <- (app_assoc (s_log s)); reflexivity|]);
    rewrite !chat_requests_app, !retry_trace_app;
    by destruct (simulation simulate_error).
Qed.

End AgentGeneral.

(** ** The agent on scripted replies *)

(** The scenario "Retryable - timeout" of the demo, for a model that picks
    [get_order_status] with the order id of the question. *)
Example agent_scenario_timeout :
  let timed_out : dict :=
    {[ "error" := PyStr "timeout"; "message" := PyStr "Request timed out";
       "retryable" := PyBool true ]} in
  let req1 :=
    ChatRequest "gpt-5-mini"
      [ChatSystem system_prompt; ChatUser "Check order ORD-67890"] true in
  run_agent_with_fallback no_clock
      (scripted_model (reply_calling "get_order_status"))
      (loads_as {[ "order_id" := PyStr "ORD-67890" ]})
      "Check order ORD-67890" (Some "timeout") session0 =
    (Returned tt,
     MkSession tt (fun _ => false)
       [AgPrint (PrUser "Check order ORD-67890");
        AgPrint (PrSimulating "timeout");
        AgChat req1 (Returned (reply_calling "get_order_status"));
        AgPrint (PrCalling "get_order_status" (PyStr "ORD-67890"));
        AgRetry (EvCall timeout_args (Returned timed_out));
        AgRetry (EvPrint (MsgRetryableError (PyStr "timeout")));
        AgRetry (EvPrint (MsgWaiting 1 1 3));
        AgRetry (EvSleep 1);
        AgRetry (EvCall timeout_args (Returned timed_out));
        AgRetry (EvPrint (MsgRetryableError (PyStr "timeout")));
        AgRetry (EvPrint (MsgWaiting 2 2 3));
        AgRetry (EvSleep 2);
        AgRetry (EvCall timeout_args (Returned timed_out));
        AgPrint
          (PrError (PyStr "max_retries") (PyStr "Failed after 3 attempts"));
        AgPrint
          (PrAgent
             (Some
                "I'm having trouble accessing our systems. Let me connect you with support@globomantics.com"))]).
Proof. vm_compute. reflexivity. Qed.

Lemma agent_reports_backend_failure_witness :
  exists (code msg : string) (e' : unit) (log : list agent_event),
    run_agent_with_fallback no_clock
        (scripted_model (reply_calling "check_inventory"))
        (loads_as {[ "product_id" := PyStr "blue-widget" ]})
        "Is blue-widget in stock?" (Some "rate_limit") session0 =
      (Returned tt,
       MkSession e' (s_cancel session0)
         (s_log session0 ++ log ++
            [AgPrint (PrError (PyStr code) (PyStr msg));
             AgPrint (PrAgent (Some (get_fallback_response code)))])) /\
    code = (if is_retryable_failure
                 (check_inventory "blue-widget" (Some "rate_limit"))
            then "max_retries" else "not_found") /\
    get_fallback_response code =
      (if is_retryable_failure
            (check_inventory "blue-widget" (Some "rate_limit"))
       then "I'm having trouble accessing our systems. Let me connect you with support@globomantics.com"
       else "I couldn't find that. Please double-check the ID and try again.") /\
    chat_requests log =
      [ChatRequest "gpt-5-mini"
         [ChatSystem system_prompt; ChatUser "Is blue-widget in stock?"]
         true] /\
    count_calls (retry_trace log) =
      (if is_retryable_failure
            (check_inventory "blue-widget" (Some "rate_limit"))
       then 3%nat else 1%nat) /\
    waits (retry_trace log) =
      (if is_retryable_failure
            (check_inventory "blue-widget" (Some "rate_limit"))
       then [1; 2] else []).
Proof.
  apply (agent_reports_backend_failure no_clock
           (scripted_model (reply_calling "check_inventory"))
           (loads_as {[ "product_id" := PyStr "blue-widget" ]})
           "Is blue-widget in stock?" (Some "rate_limit") session0
           (reply_calling "check_inventory") tt
           (ToolCall "call_1" "check_inventory" "arguments") []
           {[ "product_id" := PyStr "blue-widget" ]}
           "product_id" check_inventory "blue-widget" (Some "rate_limit")).
  - reflexivity.
  - reflexivity.
  - reflexivity.
  - right. repeat split; reflexivity.
  - vm_compute. reflexivity.
  - vm_compute. reflexivity.
Defined.

Lemma agent_answers_from_backend_success_witness :
  exists log : list agent_event,
    run_agent_with_fallback no_clock
        (scripted_model (reply_calling "get_order_status"))
        (loads_as {[ "order_id" := PyStr "ORD-12345" ]})
        "Where is order ORD-12345?" None session0 =
      (Returned tt,
       MkSession tt (s_cancel session0)
         (s_log session0 ++ log ++
            [AgPrint (PrSuccess (get_order_status "ORD-12345" None));
             AgChat
               (ChatRequest "gpt-5-mini"
                  [ChatSystem system_prompt;
                   ChatUser "Where is order ORD-12345?";
                   ChatAssistant (reply_calling "get_order_status");
                   ChatTool "call_1" (get_order_status "ORD-12345" None)]
                  false)
               (Returned
                  (ResponseMessage (Some "Your order was delivered.") []))] ++
            [AgPrint (PrAgent (Some "Your order was delivered."))])) /\
    chat_requests log =
      [ChatRequest "gpt-5-mini"
         [ChatSystem system_prompt; ChatUser "Where is order ORD-12345?"]
         true] /\
    retry_trace log =
      [EvCall {[ "order_id" := PyStr "ORD-12345" ]}
         (Returned (get_order_status "ORD-12345" None))].
Proof.
  apply (agent_answers_from_backend_success no_clock
           (scripted_model (reply_calling "get_order_status"))
           (loads_as {[ "order_id" := PyStr "ORD-12345" ]})
           "Where is order ORD-12345?" None session0
           (reply_calling "get_order_status") tt tt
           (ToolCall "call_1" "get_order_status" "arguments") []
           {[ "order_id" := PyStr "ORD-12345" ]}
           "order_id" get_order_status "ORD-12345" None
           (Returned (ResponseMessage (Some "Your order was delivered.") []))).
  - reflexivity.
  - reflexivity.
  - reflexivity.
  - left. repeat split; reflexivity.
  - vm_compute. reflexivity.
  - vm_compute. reflexivity.
  - reflexivity.
Defined.

Lemma agent_unknown_function_raises_witness :
  exists (log : list agent_event) (arg_id : pyval),
    run_agent_with_fallback no_clock
        (scripted_model (reply_calling "process_refund"))
        (loads_as {[ "order_id" := PyStr "ORD-67890" ]})
        "I want to refund ORD-67890" None session0 =
      (Raised (PyExn "KeyError" "process_refund"),
       MkSession tt (s_cancel session0)
         (s_log session0 ++ log ++
            [AgPrint (PrCalling "process_refund" arg_id)])) /\
    chat_requests log =
      [ChatRequest "gpt-5-mini"
         [ChatSystem system_prompt; ChatUser "I want to refund ORD-67890"]
         true] /\
    retry_trace log = [].
Proof.
  apply (agent_unknown_function_raises no_clock
           (scripted_model (reply_calling "process_refund"))
           (loads_as {[ "order_id" := PyStr "ORD-67890" ]})
           "I want to refund ORD-67890" None session0
           (reply_calling "process_refund") tt
           (ToolCall "call_1" "process_refund" "arguments") []
           {[ "order_id" := PyStr "ORD-67890" ]}).
  - reflexivity.
  - reflexivity.
  - reflexivity.
  - discriminate.
  - discriminate.
Defined.

Lemma agent_injects_simulated_error_witness :
  exists (log : list agent_event) (function_args : dict),
    s_log (run_agent_with_fallback no_clock
             (scripted_model (reply_calling "get_order_status"))
             (loads_as {[ "order_id" := PyStr "ORD-12345";
                          "simulate_error" := PyStr "none" ]})
             "Where is order ORD-12345?" (Some "service_unavailable")
             session0).2 = s_log session0 ++ log /\
    (forall pre a res post,
        retry_trace log = pre ++ EvCall a res :: post -> a = function_args) /\
    (Some "service_unavailable" = None \/
     Some "service_unavailable" = Some "" ->
     function_args =
       {[ "order_id" := PyStr "ORD-12345";
          "simulate_error" := PyStr "none" ]}) /\
    (forall sim, Some "service_unavailable" = Some sim -> sim <> "" ->
     function_args =
       <[ "simulate_error" := PyStr sim ]>
         ({[ "order_id" := PyStr "ORD-12345";
             "simulate_error" := PyStr "none" ]} : dict)).
Proof.
  apply (agent_injects_simulated_error no_clock
           (scripted_model (reply_calling "get_order_status"))
           (loads_as {[ "order_id" := PyStr "ORD-12345";
                        "simulate_error" := PyStr "none" ]})
           "Where is order ORD-12345?" (Some "service_unavailable") session0
           (reply_calling "get_order_status") tt
           (ToolCall "call_1" "get_order_status" "arguments") []).
  - reflexivity.
  - reflexivity.
  - reflexivity.
Defined.

(** * Waits that a cancellation interrupts *)

Lemma waits_interrupted_events args d max_retries attempt :
  waits (interrupted_events args d max_retries attempt) = [].
Proof. reflexivity. Qed.

Section InterruptedRuns.

Context {Env : Type} (elapse : Z -> Env -> Env) (cancel_exn : pyexn).
Context (func : Operation Env) (args : dict) (max_retries : Z).

Lemma execute_with_retry_interruptible_unfold (w : World Env) :
  execute_with_retry_interruptible elapse cancel_exn func args max_retries w =
    match for_in (range max_retries)
            (attempt_body_interruptible elapse cancel_exn func args
               max_retries) w with
    | (Returned (Some result), w') => (Returned result, w')
    | (Returned None, w') => (Returned (max_retries_result max_retries), w')
    | (Raised e, w') => (Raised e, w')
    end.
Proof.
  unfold execute_with_retry_interruptible, mbind, M_bind, bind.
  by destruct (for_in _ _ w) as [[[a|]|e] w'].
Qed.

(** An iteration whose wait is interrupted. *)
Lemma attempt_body_interruptible_interrupted attempt (w : World Env) d e' :
  func args (env w) = (Returned d, e') ->
  is_retryable_failure d = true ->
  (attempt <? max_retries - 1) = true ->
  cancel_at w (length (waits (trace w))) = true ->
  attempt_body_interruptible elapse cancel_exn func args max_retries
      attempt w =
    (Raised cancel_exn,
     MkWorld e' (cancel_at w)
       (trace w ++ interrupted_events args d max_retries attempt)).
Proof.
  intros Hf Hd Hlt Hc.
  unfold attempt_body_interruptible, mbind, M_bind, bind, call, print, log,
    time_sleep_interruptible.
  rewrite Hf. cbn. rewrite returns_immediately_spec, Hd, Hlt. cbn.
  rewrite !waits_app. cbn. rewrite !app_nil_r, Hc.
  unfold interrupted_events. by rewrite <- !app_assoc.
Qed.

(** An iteration is the one of [attempt_body], unless its wait is
    interrupted. *)
Lemma attempt_body_interruptible_cases attempt (w : World Env) :
  attempt_body_interruptible elapse cancel_exn func args max_retries attempt w
    = attempt_body elapse func args max_retries attempt w \/
  exists d e',
    func args (env w) = (Returned d, e') /\
    is_retryable_failure d = true /\
    (attempt <? max_retries - 1) = true /\
    cancel_at w (length (waits (trace w))) = true /\
    attempt_body_interruptible elapse cancel_exn func args max_retries
        attempt w =
      (Raised cancel_exn,
       MkWorld e' (cancel_at w)
         (trace w ++ interrupted_events args d max_retries attempt)).
Proof.
  destruct (func args (env w)) as [[d|ex] e'] eqn:Hf.
  2: { left. unfold attempt_body_interruptible, attempt_body, mbind, M_bind,
         bind, call. by rewrite Hf. }
  destruct (returns_immediately d) eqn:Hd.
  { left. unfold attempt_body_interruptible, attempt_body, mbind, M_bind,
      bind, call. rewrite Hf. cbn. by rewrite Hd. }
  assert (is_retryable_failure d = true) as Hr.
  { rewrite returns_immediately_spec in Hd.
    by destruct (is_retryable_failure d). }
  destruct (attempt <? max_retries - 1) eqn:Hlt.
  2: { left. unfold attempt_body_interruptible, attempt_body, mbind, M_bind,
         bind, call. rewrite Hf. cbn. by rewrite Hd, Hlt. }
  destruct (cancel_at w (length (waits (trace w)))) eqn:Hc.
  - right. exists d, e'. repeat split; try done.
    by apply attempt_body_interruptible_interrupted.
  - left.
    unfold attempt_body_interruptible, attempt_body, mbind, M_bind, bind,
      call, print, log, time_sleep_interruptible.
    rewrite Hf. cbn. rewrite Hd, Hlt. cbn.
    rewrite !waits_app. cbn. by rewrite !app_nil_r, Hc.
Qed.

Lemma attempt_body_cancel_at attempt (w : World Env) :
  cancel_at (attempt_body elapse func args max_retries attempt w).2
    = cancel_at w.
Proof.
  destruct (func args (env w)) as [[d|ex] e'] eqn:Hf.
  - destruct (returns_immediately d) eqn:Hd.
    + by rewrite (attempt_body_return elapse func args max_retries attempt
                    w d e').
    + rewrite (attempt_body_retry elapse func args max_retries attempt
                 w d e'); [done..|].
      rewrite returns_immediately_spec in Hd.
      by destruct (is_retryable_failure d).
  - by rewrite (attempt_body_raise elapse func args max_retries attempt
                  w ex e').
Qed.

(** Without a cancellation the runs over the two waits are the same. *)
Lemma for_in_interruptible_quiet xs (w : World Env) :
  (forall k, cancel_at w k = false) ->
  for_in xs
    (attempt_body_interruptible elapse cancel_exn func args max_retries) w
    = for_in xs (attempt_body elapse func args max_retries) w.
Proof.
  revert w. induction xs as [|x xs IH]; intros w Hquiet; [done|].
  rewrite !for_in_cons.
  destruct (attempt_body_interruptible_cases x w)
    as [->|(d & e' & _ & _ & _ & Hc & _)]; [|by rewrite Hquiet in Hc].
  pose proof (attempt_body_cancel_at x w) as Hsame.
  destruct (attempt_body elapse func args max_retries x w) as [[[r|]|ex] w'];
    try done.
  apply IH. intros k. cbn in Hsame. by rewrite Hsame.
Qed.

Lemma execute_with_retry_interruptible_quiet (w : World Env) :
  (forall k, cancel_at w k = false) ->
  execute_with_retry_interruptible elapse cancel_exn func args max_retries w
    = execute_with_retry elapse func args max_retries w.
Proof.
  intros Hquiet.
  rewrite execute_with_retry_interruptible_unfold, execute_with_retry_unfold.
  by rewrite for_in_interruptible_quiet.
Qed.


End InterruptedRuns.

(** ** A cancellation during the first wait *)

(** C4, as stated, fails: when the cancellation fires during the wait after
    attempt 0 the function returns nothing, so no Failure with the code
    ["cancelled"] either: the exception of the cancellation leaves it.
    Attempt 1 is indeed never made. *)
Lemma cancelled_failure_counterexample :
  cancel_at w_cancel 0%nat = true /\
  exists w' : World unit,
    execute_with_retry_interruptible no_clock KeyboardInterrupt
        op_get_order_status timeout_args 3 w_cancel
      = (Raised KeyboardInterrupt, w') /\
    count_calls (trace w') = 1%nat /\
    forall r : dict,
      (execute_with_retry_interruptible no_clock KeyboardInterrupt
         op_get_order_status timeout_args 3 w_cancel).1 <> Returned r.
Proof.
  split; [reflexivity|]. eexists. split; [vm_compute; reflexivity|].
  split; [vm_compute; reflexivity|].
  intros r Hr. vm_compute in Hr. discriminate Hr.
Qed.

(** C4, amended: the function has no parameter for a cancellation signal;
    a cancellation reaches it only as an exception raised into a wait.  For
    an operation whose every result is a retryable Failure under a budget
    of three, when the cancellation fires during the wait that follows
    attempt 0, the function returns no Failure: that exception leaves it,
    after the one call of attempt 0 and the two prints, and the operation
    is never called for attempt 1 or any later attempt. *)
Theorem cancellation_leaves_as_exception {Env : Type}
    (elapse : Z -> Env -> Env) (cancel_exn : pyexn) (func : Operation Env)
    (args : dict) (w : World Env) :
  always_retryable func args ->
  cancel_at w (length (waits (trace w))) = true ->
  exists (d : dict) (e' : Env) (tr : list event),
    execute_with_retry_interruptible elapse cancel_exn func args 3 w =
      (Raised cancel_exn, MkWorld e' (cancel_at w) (trace w ++ tr)) /\
    func args (env w) = (Returned d, e') /\
    tr = [EvCall args (Returned d);
          EvPrint (MsgRetryableError (py_get d "error"));
          EvPrint (MsgWaiting 1 1 3)] /\
    count_calls tr = 1%nat /\
    waits tr = [].
Proof.
  intros Hop Hc.
  destruct (Hop (env w)) as (d & e' & Hf & Hd).
  exists d, e', (interrupted_events args d 3 0).
  split; [|done].
  rewrite execute_with_retry_interruptible_unfold.
  change (range 3) with [0; 1; 2]. rewrite for_in_cons.
  by rewrite (attempt_body_interruptible_interrupted elapse cancel_exn func
                args 3 0 w d e').
Qed.

Lemma cancellation_leaves_as_exception_witness :
  exists (d : dict) (e' : unit) (tr : list event),
    execute_with_retry_interruptible no_clock KeyboardInterrupt
        op_check_inventory
        {[ "product_id" := PyStr "blue-widget";
           "simulate_error" := PyStr "rate_limit" ]} 3 w_cancel =
      (Raised KeyboardInterrupt,
       MkWorld e' (cancel_at w_cancel) (trace w_cancel ++ tr)) /\
    op_check_inventory
        {[ "product_id" := PyStr "blue-widget";
           "simulate_error" := PyStr "rate_limit" ]} (env w_cancel)
      = (Returned d, e') /\
    tr = [EvCall {[ "product_id" := PyStr "blue-widget";
                    "simulate_error" := PyStr "rate_limit" ]} (Returned d);
          EvPrint (MsgRetryableError (py_get d "error"));
          EvPrint (MsgWaiting 1 1 3)] /\
    count_calls tr = 1%nat /\
    waits tr = [].
Proof.
  apply (cancellation_leaves_as_exception no_clock KeyboardInterrupt
           op_check_inventory
           {[ "product_id" := PyStr "blue-widget";
              "simulate_error" := PyStr "rate_limit" ]} w_cancel).
  - intros e. eexists _, e. split; vm_compute; reflexivity.
  - reflexivity.
Defined.

(** ** Where an exception can come from *)


